(** * MazoMate: the extraction-and-export pipeline of [app.py]

    A shallow embedding of the part of [src/app.py] that turns the generated
    text into question/answer dictionaries (the body of [main], lines
    197-209) and of the two exporters [export_to_excel] and
    [export_to_word], followed by the properties of the specification.
    The text generation [generate_interview_questions] and the whole of
    [main] are embedded too, with further properties of the strings, the
    pairing, the exporters and the page.

    Conventions.
    - A Python [str] is a [string]; each [ascii] stands for one code point
      below 256.
    - A Python [dict] with string keys and values is an association list in
      insertion order (the order decides the columns of a DataFrame).
    - Code that can raise lives in the [result] monad; [Raise e] is an
      exception leaving the expression.
    - The calls into pandas/openpyxl and python-docx that build the in-memory
      table and document are modelled structurally, with the texts they cut
      or refuse; the final serialization to bytes is a parameter of the
      exporters, and so is the wording of the two messages of the libraries.
    - The Gemini client is a parameter of the generation; the Streamlit calls
      of [main] are the list of elements put on the page. *)

From Stdlib Require Import List String Ascii Strings.Byte Arith Bool Lia PeanoNat.
From Stdlib Require Import NArith DecimalString.
Import ListNotations.
Open Scope string_scope.

(* ===================================================================== *)
(** ** Exceptions and the error monad *)

Module Py.

(** The exception objects that the modelled code can meet: [IndexError],
    [KeyError] and [ValueError] made with one [str] argument, [MemoryError],
    [KeyboardInterrupt] and [SystemExit] made with none, and
    [OtherException printed], an instance of any other subclass of
    [Exception] (the errors of the libraries), given by what [str()] prints
    of it.  All of them derive from [Exception] except [KeyboardInterrupt]
    and [SystemExit], which derive from [BaseException] only. *)
Inductive exn : Type :=
| IndexError (msg : string)
| KeyError (key : string)
| ValueError (msg : string)
| MemoryError
| KeyboardInterrupt
| SystemExit
| OtherException (printed : string).

(** [isinstance(e, Exception)] *)
Definition is_Exception (e : exn) : bool :=
  match e with
  | KeyboardInterrupt | SystemExit => false
  | _ => true
  end.

Definition single_quote : ascii := "039"%char.
Definition double_quote : ascii := "034"%char.
Definition backslash : ascii := "092"%char.

(** Does the character [c] occur in [s]? *)
Fixpoint occurs (c : ascii) (s : string) : bool :=
  match s with
  | EmptyString => false
  | String c' s' => Ascii.eqb c' c || occurs c s'
  end.

(** [str.isprintable] on one code point below 256: all but the control
    characters U+0000..U+001F and U+007F..U+009F, the no-break space U+00A0
    and the soft hyphen U+00AD. *)
Definition isprintable (c : ascii) : bool :=
  let n := nat_of_ascii c in
  (((32 <=? n) && (n <? 127)) || ((161 <=? n) && negb (n =? 173)))%nat.

Definition hex_digit (n : nat) : ascii :=
  nth n ["0"; "1"; "2"; "3"; "4"; "5"; "6"; "7"; "8"; "9";
         "a"; "b"; "c"; "d"; "e"; "f"]%char "0"%char.

(** How [repr] writes one character inside the quotes [quote]. *)
Definition repr_char (quote c : ascii) : string :=
  let n := nat_of_ascii c in
  if Ascii.eqb c quote || Ascii.eqb c backslash
  then String backslash (String c "")
  else if (n =? 9)%nat then String backslash "t"
  else if (n =? 10)%nat then String backslash "n"
  else if (n =? 13)%nat then String backslash "r"
  else if isprintable c then String c ""
  else String backslash
         (String "x" (String (hex_digit (n / 16))
                        (String (hex_digit (n mod 16)) ""))).

Fixpoint repr_body (quote : ascii) (s : string) : string :=
  match s with
  | EmptyString => EmptyString
  | String c s' => repr_char quote c ++ repr_body quote s'
  end.

(** [repr(s)] of a [str]: in single quotes, or in double quotes when the
    text holds a single quote and no double quote; the quote in use, the
    backslash and what is not printable are escaped. *)
Definition repr (s : string) : string :=
  let quote :=
    if occurs single_quote s && negb (occurs double_quote s)
    then double_quote else single_quote in
  String quote (repr_body quote s ++ String quote "").

(** [str(e)], as interpolated by [f"{e}"]: the argument of the exception,
    nothing when there is none; a [KeyError] prints the repr of its key. *)
Definition str (e : exn) : string :=
  match e with
  | IndexError m | ValueError m | OtherException m => m
  | KeyError k => repr k
  | MemoryError | KeyboardInterrupt | SystemExit => ""
  end.

(** [str(n)] for a non-negative [int], as interpolated by an f-string or
    by [%d]. *)
Definition str_int (n : nat) : string :=
  DecimalString.NilEmpty.string_of_uint (Nat.to_uint n).

Inductive result (A : Type) : Type :=
| Ok (a : A)
| Raise (e : exn).
Arguments Ok {A} a.
Arguments Raise {A} e.

Definition ret {A} (a : A) : result A := Ok a.

Definition bind {A B} (m : result A) (k : A -> result B) : result B :=
  match m with
  | Ok a => k a
  | Raise e => Raise e
  end.

(** [for x in xs: s = body(x, s)] *)
Fixpoint for_each {X S} (xs : list X) (body : X -> S -> result S) (s : S)
  : result S :=
  match xs with
  | [] => Ok s
  | x :: xs' => bind (body x s) (for_each xs' body)
  end.

(** [range(start, stop, step)] for a positive [step]: CPython computes the
    length [(stop - start + step - 1) // step] (0 when [stop <= start]) and
    item [k] as [start + k * step]. *)
Definition range (start stop step : nat) : list nat :=
  map (fun k => start + k * step) (seq 0 ((stop - start + step - 1) / step)).

(** [l[i]] for a non-negative index. *)
Definition getitem {A} (l : list A) (i : nat) : result A :=
  match nth_error l i with
  | Some x => Ok x
  | None => Raise (IndexError "list index out of range")
  end.

(** *** Strings *)

(** Truth value of a [str]: false exactly for the empty string. *)
Definition truthy (s : string) : bool :=
  match s with
  | EmptyString => false
  | String _ _ => true
  end.

(** [s.split(sep)] for a one-character separator: no field is dropped, and
    the empty string splits into one empty field. *)
Fixpoint split (sep : ascii) (s : string) : list string :=
  match s with
  | EmptyString => [EmptyString]
  | String c s' =>
      if Ascii.eqb c sep then EmptyString :: split sep s'
      else match split sep s' with
           | [] => [String c EmptyString]
           | field :: fields => String c field :: fields
           end
  end.

(** [str.isspace] on one code point below 256: U+0009..U+000D,
    U+001C..U+001F, U+0020, U+0085 and U+00A0. *)
Definition isspace (c : ascii) : bool :=
  let n := nat_of_ascii c in
  (((9 <=? n) && (n <=? 13)) || ((28 <=? n) && (n <=? 32))
   || (n =? 133) || (n =? 160))%nat.

Fixpoint lstrip (s : string) : string :=
  match s with
  | EmptyString => EmptyString
  | String c s' => if isspace c then lstrip s' else s
  end.

Fixpoint rstrip (s : string) : string :=
  match s with
  | EmptyString => EmptyString
  | String c s' =>
      match rstrip s' with
      | EmptyString => if isspace c then EmptyString else String c EmptyString
      | r => String c r
      end
  end.

(** [s.strip()] *)
Definition strip (s : string) : string := rstrip (lstrip s).

(** *** Dictionaries *)

Definition dict : Type := list (string * string).

Fixpoint dict_find (d : dict) (key : string) : option string :=
  match d with
  | [] => None
  | (k, v) :: d' => if String.eqb k key then Some v else dict_find d' key
  end.

(** [d[key]] *)
Definition dict_getitem (d : dict) (key : string) : result string :=
  match dict_find d key with
  | Some v => Ok v
  | None => Raise (KeyError key)
  end.

Definition keys (d : dict) : list string := map fst d.

End Py.

Import Py.

Declare Scope py_scope.
Notation "x <- m ;; k" := (bind m (fun x => k))
  (at level 61, m at next level, right associativity) : py_scope.
Open Scope py_scope.

Definition newline : ascii := "010"%char.

(** The one-character string made of a newline. *)
Definition nl : string := String newline "".

(* ===================================================================== *)
(** ** The segmenter: [main], lines 197 and 204-209 *)

(** The dictionary literal [{"Question": question, "Answer": answer}]. *)
Definition qa_dict (question answer : string) : dict :=
  [("Question", question); ("Answer", answer)].

(** One iteration of the loop of lines 206-209. *)
Definition pair_step (lines : list string) (i : nat) (qa_pairs : list dict)
  : result (list dict) :=
  question <- (if (i <? List.length lines)%nat
               then (l <- getitem lines i ;; ret (strip l))
               else ret "") ;;
  answer <- (if (i + 1 <? List.length lines)%nat
             then (l <- getitem lines (i + 1) ;; ret (strip l))
             else ret "") ;;
  ret (qa_pairs ++ [qa_dict question answer])%list.

(** Lines 204-209: pair the lines two at a time. *)
Definition pair_lines (generated_content : string) : result (list dict) :=
  let qa_pairs := [] in
  let lines := split newline generated_content in
  for_each (range 0 (List.length lines) 2) (pair_step lines) qa_pairs.

(** The segmenter as [main] runs it: the pairing of lines 204-209 sits under
    [if generated_content:] (line 197).  For an empty text the block is
    skipped: no [append] is reached, no dictionary is created and nothing is
    exported; the empty list stands for this outcome. *)
Definition Segmenter (generated_content : string) : result (list dict) :=
  if truthy generated_content then pair_lines generated_content
  else ret [].

(** *** Auxiliary notions for the statements *)

(** Line [i], stripped, or the empty string past the last line: the value
    both conditional expressions of lines 207-208 compute. *)
Definition field (lines : list string) (i : nat) : string :=
  match nth_error lines i with
  | Some l => strip l
  | None => ""
  end.

(** The number of iterations of [range(0, n, 2)]. *)
Definition pairs_count (n : nat) : nat := (n - 0 + 2 - 1) / 2.

(** Record [k] of the pairing, from lines [2k] and [2k + 1]. *)
Definition pair_at (lines : list string) (k : nat) : dict :=
  qa_dict (field lines (0 + k * 2)) (field lines (0 + k * 2 + 1)).


(* ===================================================================== *)
(** ** pandas and openpyxl, as far as [export_to_excel] uses them *)

Module Pandas.

(** A field of a DataFrame of strings; [None] is the missing value NaN. *)
Definition value : Type := option string.

Record DataFrame : Type := mkDataFrame {
  columns : list string;
  rows : list (list value)
}.

(** Add to [seen], in order, the keys that are not in it yet. *)
Fixpoint add_keys (seen ks : list string) : list string :=
  match ks with
  | [] => seen
  | k :: ks' =>
      add_keys (if existsb (String.eqb k) seen then seen
                else (seen ++ [k])%list) ks'
  end.

Fixpoint unique_keys (seen : list string) (data : list dict) : list string :=
  match data with
  | [] => seen
  | d :: data' => unique_keys (add_keys seen (keys d)) data'
  end.

(** [pd.DataFrame(data)] for a list of dictionaries: the columns are the
    keys in order of first appearance, one row per dictionary, NaN where a
    dictionary lacks a key.  An empty list gives no column and no row. *)
Definition from_records (data : list dict) : DataFrame :=
  let cols := unique_keys [] data in
  {| columns := cols;
     rows := map (fun d => map (dict_find d) cols) data |}.

(** The [value] of a spreadsheet cell: a text or a number.  (The data type
    that openpyxl attaches to a text, string, formula or error code, is not
    told apart.) *)
Inductive xl_value : Type :=
| XStr (s : string)
| XInt (n : nat).

Record ExcelCell : Type := mkCell {
  row : nat;
  col : nat;
  val : xl_value
}.

Record Sheet : Type := mkSheet {
  sheet_name : string;
  cells : list ExcelCell
}.

Definition Workbook : Type := list Sheet.

Fixpoint enumerate {A} (start : nat) (l : list A) : list (nat * A) :=
  match l with
  | [] => []
  | x :: l' => (start, x) :: enumerate (S start) l'
  end.

(** [na_rep=''], the default of [to_excel]. *)
Definition na_rep (v : value) : xl_value :=
  match v with
  | Some s => XStr s
  | None => XStr ""
  end.

(** The cells of column [c] of the sheet, from sheet row [r0] on. *)
Definition column_cells (r0 c : nat) (vs : list xl_value) : list ExcelCell :=
  map (fun iv => mkCell (fst iv) c (snd iv)) (enumerate r0 vs).

(** The cells that pandas hands to the writer for
    [df.to_excel(writer, index=index)] with the default [header=True], in
    the order it makes them: the column labels in sheet row 0; with
    [index=True] the row labels 0, 1, ... in column 0; then the body, series
    by series, DataFrame row [i] in sheet row [i + 1]. *)
Definition formatted_cells (df : DataFrame) (index : bool) : list ExcelCell :=
  let c0 := if index then 1 else 0 in
  let header :=
    map (fun jc => mkCell 0 (fst jc) (XStr (snd jc)))
        (enumerate c0 (columns df)) in
  let labels :=
    if index
    then column_cells 1 0 (map XInt (seq 0 (List.length (rows df))))
    else [] in
  let body :=
    flat_map (fun j =>
                column_cells 1 (c0 + j)
                  (map (fun fields => na_rep (nth j fields None)) (rows df)))
             (seq 0 (List.length (columns df))) in
  (header ++ labels ++ body)%list.

(** The longest text of a cell. *)
#[warnings="-abstract-large-number"]
Definition max_cell_length : nat := 32767.


(** [s[:n]] *)
Fixpoint truncate (n : nat) (s : string) : string :=
  match s, n with
  | String c s', S n' => String c (truncate n' s')
  | _, _ => EmptyString
  end.

(** The characters of openpyxl's [ILLEGAL_CHARACTERS_RE]: the control
    characters below U+0020 other than tab, line feed and carriage return. *)
Definition illegal (c : ascii) : bool :=
  let n := nat_of_ascii c in
  ((n <=? 8) || (n =? 11) || (n =? 12) || ((14 <=? n) && (n <=? 31)))%nat.

Fixpoint has_illegal (s : string) : bool :=
  match s with
  | EmptyString => false
  | String c s' => illegal c || has_illegal s'
  end.

(** openpyxl's [check_string], run when a text is given to a cell: the text
    is cut at 32767 characters, and refused ([inr], with the text as cut)
    when an illegal character is left in it. *)
Definition check_string (s : string) : string + string :=
  let v := truncate max_cell_length s in
  if has_illegal v then inr v else inl v.

(** [cell.value = v] *)
Definition bind_value (v : xl_value) : xl_value + string :=
  match v with
  | XStr s =>
      match check_string s with
      | inl s' => inl (XStr s')
      | inr bad => inr bad
      end
  | XInt n => inl (XInt n)
  end.

(** The writer gives the cells their values one after the other; the first
    text that is refused stops it.  The result is the cells that have their
    value by then, and the refused text if any. *)
Fixpoint write_cells (todo : list ExcelCell) : list ExcelCell * option string :=
  match todo with
  | [] => ([], None)
  | c :: todo' =>
      match bind_value (val c) with
      | inl v =>
          let (written, refused) := write_cells todo' in
          (mkCell (row c) (col c) v :: written, refused)
      | inr bad => ([], Some bad)
      end
  end.

(** [df.to_excel(writer, index=index, sheet_name=name)]: a sheet [name] is
    added to the workbook of the writer and receives the cells; the second
    component is the text of the [IllegalCharacterError] that ends the call,
    if any. *)
Definition to_excel (df : DataFrame) (index : bool) (name : string)
           (book : Workbook) : Workbook * option string :=
  let (written, refused) := write_cells (formatted_cells df index) in
  ((book ++ [mkSheet name written])%list, refused).



End Pandas.

(* ===================================================================== *)
(** ** python-docx, as far as [export_to_word] uses it *)

Module Docx.

(** The content of a run: pieces of text, tabs and line breaks. *)
Inductive run_item : Type :=
| Text (s : string)
| Tab
| Break.

(** A block of the document body, with the content of its run (none for an
    empty text).  [Heading 0] is the title style, [Heading n] the heading of
    level [n]. *)
Inductive block : Type :=
| Heading (level : nat) (content : list run_item)
| Paragraph (content : list run_item).

Definition Document : Type := list block.

(** [Document()]: the default template has an empty body. *)
Definition new_document : Document := [].

(** How a run takes a text: a tab becomes a tab element, a line feed or a
    carriage return a line break, and the characters between them pieces of
    text. *)
Fixpoint run_items (s : string) : list run_item :=
  match s with
  | EmptyString => []
  | String c s' =>
      let n := nat_of_ascii c in
      if (n =? 9)%nat then Tab :: run_items s'
      else if ((n =? 10) || (n =? 13))%nat then Break :: run_items s'
      else match run_items s' with
           | Text t :: items => Text (String c t) :: items
           | items => Text (String c "") :: items
           end
  end.

(** The characters that XML, hence lxml, refuses in a text: the control
    characters below U+0020 other than tab, line feed and carriage return. *)
Definition xml_illegal (c : ascii) : bool :=
  let n := nat_of_ascii c in
  ((n <? 32) && negb ((n =? 9) || (n =? 10) || (n =? 13)))%nat.

Fixpoint xml_compatible (s : string) : bool :=
  match s with
  | EmptyString => true
  | String c s' => negb (xml_illegal c) && xml_compatible s'
  end.

(** [paragraph.add_run(text)] when [text] is not empty: lxml raises a
    [ValueError], whose message is [xml_message], on a character that XML
    refuses. *)
Definition add_run (xml_message : string) (text : string)
  : result (list run_item) :=
  if xml_compatible text then Ok (run_items text)
  else Raise (ValueError xml_message).

(** [doc.add_paragraph(text)] *)
Definition add_paragraph (xml_message : string) (text : string)
           (doc : Document) : result Document :=
  content <- add_run xml_message text ;;
  ret (doc ++ [Paragraph content])%list.

(** [doc.add_heading(text, level)] *)
Definition add_heading (xml_message : string) (text : string) (level : nat)
           (doc : Document) : result Document :=
  if (level <=? 9)%nat
  then content <- add_run xml_message text ;;
       ret (doc ++ [Heading level content])%list
  else Raise (ValueError ("level must be in range 0-9, got " ++ str_int level)).

(** [paragraph.text]: the text of a run, a tab read as a tab character and
    a line break as a line feed. *)
Fixpoint text_of (items : list run_item) : string :=
  match items with
  | [] => EmptyString
  | Text t :: items' => t ++ text_of items'
  | Tab :: items' => String "009"%char (text_of items')
  | Break :: items' => String "010"%char (text_of items')
  end.

End Docx.

Import Pandas Docx.

(* ===================================================================== *)
(** ** The exporters *)

(** The content of a [BytesIO] buffer. *)
Definition bytes : Type := list Byte.byte.

(** The messages shown so far with [st.error]. *)
Definition UI : Type := list string.

Definition st_error (msg : string) (ui : UI) : UI := (ui ++ [msg])%list.

(** Lines 56-61, up to the end of the [with] block: the state of the
    workbook of the writer, and the text that openpyxl refused if
    [to_excel] raised.  pandas starts the writer with no sheet. *)
Definition excel_written (data : list dict) : Workbook * option string :=
  let df := from_records data in
  let writer : Workbook := [] in
  to_excel df false "Interview Questions" writer.

(** The workbook that is saved when the [with] block is left. *)
Definition excel_workbook (data : list dict) : Workbook :=
  fst (excel_written data).

Definition excel_refused (data : list dict) : option string :=
  snd (excel_written data).

(** Lines 74-80: the document at the moment it is saved. *)
Definition word_document (xml_message : string) (data : list dict)
  : result Document :=
  doc <- add_heading xml_message "Interview Questions and Answers" 0
           new_document ;;
  for_each data
    (fun qa doc =>
       q <- dict_getitem qa "Question" ;;
       doc <- add_heading xml_message q 1 doc ;;
       a <- dict_getitem qa "Answer" ;;
       add_paragraph xml_message a doc)
    doc.

(** The wording of the two messages of the libraries that the exporters can
    show: that of openpyxl's [IllegalCharacterError] for a refused text, and
    that of lxml's [ValueError] for a text that XML refuses. *)
Record LibraryMessages : Type := mkMessages {
  illegal_character : string -> string;
  xml_incompatible : string
}.

Section Exporters.

(** The serializers of openpyxl and python-docx write the workbook or the
    document into the buffer, or raise.  What they produce may depend on the
    environment of the call (the clock for the time stamps of the archive,
    the memory left). *)
Variable Env : Type.
Variable msgs : LibraryMessages.
Variable xlsx_save : Env -> Workbook -> result bytes.
Variable docx_save : Env -> Document -> result bytes.

(** [try: body / except Exception as e: st.error(prefix + str(e)); return
    None].  An exception that is not an [Exception] passes through. *)
Definition try_export (body : result bytes) (prefix : string) (ui : UI)
  : result (option bytes) * UI :=
  match body with
  | Ok output => (Ok (Some output), ui)
  | Raise e =>
      if is_Exception e then (Ok None, st_error (prefix ++ str e) ui)
      else (Raise e, ui)
  end.

(** The body of the [try] of [export_to_excel], lines 56-64.  Leaving the
    [with] block saves the workbook, also when [to_excel] raised; an
    exception of the save then takes the place of the first one. *)
Definition excel_try (data : list dict) (env : Env) : result bytes :=
  match xlsx_save env (excel_workbook data), excel_refused data with
  | Raise e, _ => Raise e
  | Ok output, None => Ok output
  | Ok _, Some bad => Raise (OtherException (illegal_character msgs bad))
  end.

(** The body of the [try] of [export_to_word], lines 74-86. *)
Definition word_try (data : list dict) (env : Env) : result bytes :=
  doc <- word_document (xml_incompatible msgs) data ;; docx_save env doc.

(** [export_to_excel(data)], lines 52-67. *)
Definition export_to_excel (data : list dict) (env : Env) (ui : UI)
  : result (option bytes) * UI :=
  try_export (excel_try data env) "Error exporting to Excel: " ui.

(** [export_to_word(data)], lines 70-89. *)
Definition export_to_word (data : list dict) (env : Env) (ui : UI)
  : result (option bytes) * UI :=
  try_export (word_try data env) "Error exporting to Word: " ui.

End Exporters.

(** A sequence of records, given by its (question, answer) pairs, as the
    list of dictionaries that the exporters receive. *)
Definition records (rs : list (string * string)) : list dict :=
  map (fun r => qa_dict (fst r) (snd r)) rs.

(** *** Auxiliary notions for the statements about the exporters *)

Definition title : string := "Interview Questions and Answers".

(** The heading and the paragraph that one record contributes. *)
Definition qa_blocks (r : string * string) : list block :=
  [Heading 1 (run_items (fst r)); Paragraph (run_items (snd r))].

(** A text as a cell keeps it: its first 32767 characters. *)
Definition cut (s : string) : string := truncate max_cell_length s.

(** openpyxl accepts the text: no illegal character is left once it is
    cut. *)
Definition writable (s : string) : bool := negb (has_illegal (cut s)).




Definition all_xml_compatible (rs : list (string * string)) : bool :=
  forallb (fun r => xml_compatible (fst r) && xml_compatible (snd r)) rs.

(** A text with each carriage return read as a line feed. *)
Fixpoint cr_to_lf (s : string) : string :=
  match s with
  | EmptyString => EmptyString
  | String c s' =>
      String (if (nat_of_ascii c =? 13)%nat then "010"%char else c)
             (cr_to_lf s')
  end.

(** The wording of the current releases of openpyxl and lxml, for the
    examples. *)
Definition release_messages : LibraryMessages :=
  {| illegal_character := fun v => v ++ " cannot be used in worksheets.";
     xml_incompatible :=
       "All strings must be XML compatible: Unicode or ASCII, no NULL bytes or control characters" |}.

(** The vertical tab U+000B, a character that both libraries refuse. *)
Definition vertical_tab : string := String "011"%char "".




(** What [try ... except Exception] makes of the outcome of its body, as far
    as the returned value goes. *)
Definition returned (body : result bytes) : result (option bytes) :=
  match body with
  | Ok output => Ok (Some output)
  | Raise e => if is_Exception e then Ok None else Raise e
  end.

(** Serializers for the examples: one that always raises [e], one that
    ignores the environment, one that stamps the time of the call. *)
Definition failing {X} (e : exn) : unit -> X -> result bytes :=
  fun _ _ => Raise e.

Definition constant_save {X} : nat -> X -> result bytes :=
  fun _ _ => Ok [x50; x4b]%byte.

Definition stamping_save {X} : nat -> X -> result bytes :=
  fun now _ => Ok (x50 :: x4b :: repeat x00 now)%byte.

(* ===================================================================== *)
(** ** The text generation: [generate_interview_questions], lines 16-49 *)

(** The prompt of lines 38-42. *)
Definition build_prompt (domain : string) (experience_level : nat)
           (complexity : string) : string :=
  "Generate a set of " ++ complexity
    ++ " interview questions and answers for a " ++ domain ++ " professional "
    ++ "with " ++ str_int experience_level
    ++ " years of experience. The format should be clear and structured: "
    ++ "each question followed by the corresponding answer.".

Section Generation.

(** The Gemini client (lines 29-45): for a prompt, the text of the response
    or the exception raised on the way, which may depend on the environment
    of the call. *)
Variable Env : Type.
Variable send_message : Env -> string -> result string.

(** [generate_interview_questions(domain, experience_level, complexity)] *)
Definition generate_interview_questions
           (domain : string) (experience_level : nat) (complexity : string)
           (env : Env) (ui : UI) : result string * UI :=
  let prompt := build_prompt domain experience_level complexity in
  match (text <- send_message env prompt ;; ret (strip text)) with
  | Ok content => (Ok content, ui)
  | Raise e =>
      if is_Exception e
      then (Ok "", st_error ("Error fetching questions: " ++ str e) ui)
      else (Raise e, ui)
  end.

End Generation.

(* ===================================================================== *)
(** ** The page: [main], lines 92-235 *)

(** The choices of the radio button of line 180. *)
Inductive Complexity : Type := Basic | Intermediate | Advanced.

Definition complexity_label (c : Complexity) : string :=
  match c with
  | Basic => "Basic"
  | Intermediate => "Intermediate"
  | Advanced => "Advanced"
  end.

(** The pieces of HTML that [main] passes to [st.markdown]; their text plays
    no part in the control flow and is not reproduced. *)
Inductive markup : Type :=
| TopImage
| ButtonStyles
| GenerateButton
| ExcelButton
| WordButton.

(** The elements that [main] puts on the page, [st.error] apart (the error
    messages keep the log of their own that the exporters use). *)
Inductive widget : Type :=
| Markdown (m : markup)
| Title (text : string)
| SidebarHeader (text : string)
| TextInput (label : string)
| Slider (label : string) (min_value max_value step : nat)
| Radio (label : string) (options : list string)
| Write (text : string)
| Info (text : string)
| Success (text : string)
| TextArea (label value : string) (height : nat)
| DownloadButton (label : string) (data : bytes) (file_name mime : string).

Definition xlsx_name : string := "Mazo_Interview_Question_Answer.xlsx".
Definition docx_name : string := "Mazo_Interview_Question_Answer.docx".
Definition xlsx_mime : string :=
  "application/vnd.openxmlformats-officedocument.spreadsheetml.sheet".
Definition docx_mime : string :=
  "application/vnd.openxmlformats-officedocument.wordprocessingml.document".

(** Lines 153-192: what is shown before the text is requested. *)
Definition front_page (domain : string) (experience_level : nat)
           (complexity : Complexity) : list widget :=
  [Markdown TopImage;
   Title "MazoMate";
   SidebarHeader "Configuration";
   TextInput
     "Enter a Programming/Area (e.g., Python, Java, C++, HR, Data Science, Marketing)";
   Slider "Experience Level (years)" 1 50 1;
   Radio "Question Complexity" ["Basic"; "Intermediate"; "Advanced"];
   Write "### Selected Configuration";
   Write ("**Domain/Area**: " ++ domain);
   Write ("**Experience Level**: " ++ str_int experience_level ++ " years");
   Write ("**Complexity**: " ++ complexity_label complexity);
   Markdown ButtonStyles;
   Markdown GenerateButton;
   Info "Generating interview questions. Please wait..."].

(** Truth value of a list: false exactly for the empty list. *)
Definition list_truthy {A} (l : list A) : bool :=
  match l with
  | [] => false
  | _ :: _ => true
  end.

Section Page.

Variable Env : Type.
Variable msgs : LibraryMessages.
Variable send_message : Env -> string -> result string.
Variable xlsx_save : Env -> Workbook -> result bytes.
Variable docx_save : Env -> Document -> result bytes.

(** Lines 214-223.  [st.markdown] returns the element it made, which is
    true, so the export always runs; a [BytesIO] object is true, so
    [if excel_file:] tests for [None]. *)
Definition excel_section (qa_pairs : list dict) (env : Env)
           (page : list widget) (ui : UI) : result (list widget) * UI :=
  let page := (page ++ [Markdown ExcelButton])%list in
  match export_to_excel Env msgs xlsx_save qa_pairs env ui with
  | (Ok (Some excel_file), ui) =>
      (Ok (page ++ [Success "Ready to download Excel file!";
                    DownloadButton "Download Interview Questions Excel"
                      excel_file xlsx_name xlsx_mime])%list, ui)
  | (Ok None, ui) => (Ok page, ui)
  | (Raise e, ui) => (Raise e, ui)
  end.

(** Lines 226-235. *)
Definition word_section (qa_pairs : list dict) (env : Env)
           (page : list widget) (ui : UI) : result (list widget) * UI :=
  let page := (page ++ [Markdown WordButton])%list in
  match export_to_word Env msgs docx_save qa_pairs env ui with
  | (Ok (Some word_file), ui) =>
      (Ok (page ++ [Success "Ready to download Word file!";
                    DownloadButton "Download Interview Questions Word"
                      word_file docx_name docx_mime])%list, ui)
  | (Ok None, ui) => (Ok page, ui)
  | (Raise e, ui) => (Raise e, ui)
  end.

(** Lines 212-235. *)
Definition export_options (qa_pairs : list dict) (env : Env)
           (page : list widget) (ui : UI) : result (list widget) * UI :=
  if list_truthy qa_pairs then
    match excel_section qa_pairs env page ui with
    | (Ok page, ui) => word_section qa_pairs env page ui
    | (Raise e, ui) => (Raise e, ui)
    end
  else (Ok page, ui).

(** [main()], for the values that the three input widgets return.  The
    result is the page shown, or the exception that ends the run.  The test
    of line 191 is on the value of [st.markdown], which is true, so the
    generation always runs. *)
Definition main (domain : string) (experience_level : nat)
           (complexity : Complexity) (env : Env) (ui : UI)
  : result (list widget) * UI :=
  let page := front_page domain experience_level complexity in
  match generate_interview_questions Env send_message domain experience_level
          (complexity_label complexity) env ui with
  | (Ok generated_content, ui) =>
      if truthy generated_content then
        let page :=
          (page ++ [Success "Questions generated successfully!";
                    Write "### Generated Questions and Answers";
                    TextArea "Questions & Answers" generated_content 300])%list
        in
        match pair_lines generated_content with
        | Ok qa_pairs => export_options qa_pairs env page ui
        | Raise e => (Raise e, ui)
        end
      else (Ok page, ui)
  | (Raise e, ui) => (Raise e, ui)
  end.

End Page.

(** *** Auxiliary notions for the statements about the whole page *)

(** The structural pairing of a list of lines: two at a time, the last one
    alone with an empty answer. *)
Fixpoint pair_up (lines : list string) : list (string * string) :=
  match lines with
  | [] => []
  | [q] => [(strip q, "")]
  | q :: a :: rest => (strip q, strip a) :: pair_up rest
  end.

(** The number of occurrences of [c] in [s]. *)
Fixpoint count_char (c : ascii) (s : string) : nat :=
  match s with
  | EmptyString => 0
  | String c' s' => (if Ascii.eqb c' c then 1 else 0) + count_char c s'
  end.

Definition first_char (s : string) : option ascii :=
  match s with
  | EmptyString => None
  | String c _ => Some c
  end.

Fixpoint last_char (s : string) : option ascii :=
  match s with
  | EmptyString => None
  | String c EmptyString => Some c
  | String _ s' => last_char s'
  end.

(** [s] is empty or begins and ends with a character that is no space. *)
Definition trimmed (s : string) : Prop :=
  match first_char s, last_char s with
  | Some c, Some d => isspace c = false /\ isspace d = false
  | _, _ => s = ""
  end.

(** What holds of each field of a record: trimmed, and on one line. *)
Definition clean (s : string) : Prop :=
  trimmed s /\ occurs newline s = false.

(** The key whose lookup fails first when [export_to_word] handles the
    dictionary [d]: line 79 reads "Question", then line 80 reads "Answer". *)
Definition first_missing (d : dict) : option string :=
  match dict_find d "Question", dict_find d "Answer" with
  | None, _ => Some "Question"
  | Some _, None => Some "Answer"
  | Some _, Some _ => None
  end.

(** The page once the text has arrived (lines 198-200). *)
Definition results_page (domain : string) (experience_level : nat)
           (complexity : Complexity) (generated_content : string)
  : list widget :=
  (front_page domain experience_level complexity
     ++ [Success "Questions generated successfully!";
         Write "### Generated Questions and Answers";
         TextArea "Questions & Answers" generated_content 300])%list.

Fixpoint all_space (s : string) : bool :=
  match s with
  | EmptyString => true
  | String c s' => isspace c && all_space s'
  end.

Definition is_download (w : widget) : bool :=
  match w with
  | DownloadButton _ _ _ _ => true
  | _ => false
  end.

Definition is_success (w : widget) : bool :=
  match w with
  | Success _ => true
  | _ => false
  end.

(* ===================================================================== *)
(** * Properties of the segmenter *)

Section SegmenterFacts.

Lemma guarded_read (lines : list string) (i : nat) :
  (if (i <? List.length lines)%nat
   then (l <- getitem lines i ;; ret (strip l))
   else ret "") = Ok (field lines i).
Proof.
  unfold field, getitem.
  destruct (Nat.ltb_spec i (List.length lines)) as [Hlt | Hge].
  - destruct (nth_error lines i) eqn:E; [reflexivity |].
    apply nth_error_None in E. lia.
  - apply nth_error_None in Hge. now rewrite Hge.
Qed.

Lemma pair_step_ok (lines : list string) (i : nat) (acc : list dict) :
  pair_step lines i acc
  = Ok (acc ++ [qa_dict (field lines i) (field lines (i + 1))])%list.
Proof.
  unfold pair_step. now rewrite !guarded_read.
Qed.

Lemma pair_loop_ok (lines : list string) (idx : list nat) :
  forall acc,
    for_each idx (pair_step lines) acc
    = Ok (acc ++ map (fun i => qa_dict (field lines i) (field lines (i + 1)))
                     idx)%list.
Proof.
  induction idx as [| i idx IH]; intros acc; simpl.
  - now rewrite app_nil_r.
  - rewrite pair_step_ok. simpl. rewrite IH, <- app_assoc. reflexivity.
Qed.

Lemma pairs_count_even (n : nat) : pairs_count (2 * n) = n.
Proof.
  unfold pairs_count.
  replace (2 * n - 0 + 2 - 1) with (n * 2 + 1) by lia.
  rewrite Nat.div_add_l by lia. simpl. lia.
Qed.

Lemma pairs_count_odd (n : nat) : pairs_count (2 * n + 1) = n + 1.
Proof.
  unfold pairs_count.
  replace (2 * n + 1 - 0 + 2 - 1) with ((n + 1) * 2 + 0) by lia.
  rewrite Nat.div_add_l by lia. simpl. lia.
Qed.

Lemma pair_lines_closed (s : string) :
  pair_lines s
  = Ok (map (pair_at (split newline s))
            (seq 0 (pairs_count (List.length (split newline s))))).
Proof.
  unfold pair_lines, range. cbv zeta.
  rewrite pair_loop_ok, map_map. reflexivity.
Qed.

Lemma split_nonempty (sep : ascii) (s : string) : split sep s <> [].
Proof.
  destruct s as [| c s]; simpl; [discriminate |].
  destruct (Ascii.eqb c sep); [discriminate |].
  destruct (split sep s); discriminate.
Qed.

Lemma nth_pair_at (lines : list string) (m k : nat) :
  k < m -> nth_error (map (pair_at lines) (seq 0 m)) k = Some (pair_at lines k).
Proof.
  intros Hk. rewrite nth_error_map, nth_error_seq.
  destruct (Nat.ltb_spec k m); [reflexivity | lia].
Qed.

End SegmenterFacts.

(** The four scenarios of the specification. *)

Example scenario1 :
  Segmenter ("Q1" ++ nl ++ "A1" ++ nl ++ "Q2" ++ nl ++ "A2")
  = Ok [qa_dict "Q1" "A1"; qa_dict "Q2" "A2"].
Proof. reflexivity. Qed.

Example scenario2 :
  Segmenter ("Q1" ++ nl ++ "A1" ++ nl ++ "Q2")
  = Ok [qa_dict "Q1" "A1"; qa_dict "Q2" ""].
Proof. reflexivity. Qed.

Example scenario4 :
  Segmenter ("Q1" ++ nl ++ nl ++ "Q2" ++ nl ++ "A2")
  = Ok [qa_dict "Q1" ""; qa_dict "Q2" "A2"].
Proof. reflexivity. Qed.

Example whitespace_only_lines :
  Segmenter ("  Q1 " ++ nl ++ "   " ++ nl)
  = Ok [qa_dict "Q1" ""; qa_dict "" ""].
Proof. reflexivity. Qed.

(** Without the guard of line 197 the pairing of the empty text makes one
    record of two empty strings: [''.split('\n')] is [['']]. *)
Lemma pair_lines_empty : pair_lines "" = Ok [qa_dict "" ""].
Proof. reflexivity. Qed.

(** Whenever the pairing runs it makes at least one record, so the test
    [if qa_pairs:] of line 212 holds each time it is reached: within [main]
    the exporters never receive an empty list. *)
Lemma pair_lines_nonempty (s : string) :
  exists r rs, pair_lines s = Ok (r :: rs).
Proof.
  rewrite pair_lines_closed.
  destruct (split newline s) as [| l ls] eqn:E.
  - now apply split_nonempty in E.
  - cbn [List.length]. unfold pairs_count.
    replace (S (List.length ls) - 0 + 2 - 1) with (1 * 2 + List.length ls)
      by lia.
    rewrite Nat.div_add_l by lia. cbn [Nat.add seq map]. eauto.
Qed.

(** C1: for the empty input string the segmenter returns the empty sequence,
    zero records, and not a sequence of one record whose question and answer
    are both empty. *)
Theorem C1_empty_input_no_record :
  Segmenter "" = Ok [] /\ Segmenter "" <> Ok [qa_dict "" ""].
Proof.
  split; [reflexivity | discriminate].
Qed.

Lemma even_lines_truthy (s : string) (n : nat) :
  List.length (split newline s) = 2 * n -> truthy s = true.
Proof.
  destruct s as [| c s]; simpl; [lia | reflexivity].
Qed.

Lemma field_some (lines : list string) (i : nat) (l : string) :
  nth_error lines i = Some l -> field lines i = strip l.
Proof. unfold field. now intros ->. Qed.

Lemma nth_error_lt {A} (l : list A) (i : nat) :
  i < List.length l -> exists x, nth_error l i = Some x.
Proof.
  intros H. destruct (nth_error l i) eqn:E; [eauto |].
  apply nth_error_None in E. lia.
Qed.

(** C2: when the newline split of the input has even length [2n], the
    segmenter produces exactly [n] records, and record [i] has as question
    line [2i] stripped and as answer line [2i+1] stripped, in input order. *)
Theorem C2_even_line_count (s : string) (n : nat) :
  List.length (split newline s) = 2 * n ->
  exists rs,
    Segmenter s = Ok rs /\ List.length rs = n /\
    forall i, i < n ->
      exists lq la,
        nth_error (split newline s) (2 * i) = Some lq /\
        nth_error (split newline s) (2 * i + 1) = Some la /\
        nth_error rs i = Some (qa_dict (strip lq) (strip la)).
Proof.
  intros Hlen. unfold Segmenter.
  rewrite (even_lines_truthy s n Hlen), pair_lines_closed, Hlen,
    pairs_count_even.
  eexists; split; [reflexivity | split].
  - now rewrite length_map, length_seq.
  - intros i Hi.
    destruct (nth_error_lt (split newline s) (2 * i)) as [lq Hq]; [lia |].
    destruct (nth_error_lt (split newline s) (2 * i + 1)) as [la Ha]; [lia |].
    exists lq, la. repeat split; trivial.
    rewrite nth_pair_at by exact Hi. unfold pair_at.
    replace (0 + i * 2) with (2 * i) by lia.
    now rewrite (field_some _ _ _ Hq), (field_some _ _ _ Ha).
Qed.

Lemma C2_even_line_count_witness :
  List.length (split newline ("Q1" ++ nl ++ "A1" ++ nl ++ "Q2" ++ nl ++ "A2"))
  = 2 * 2
  /\ exists rs,
      Segmenter ("Q1" ++ nl ++ "A1" ++ nl ++ "Q2" ++ nl ++ "A2") = Ok rs /\
      List.length rs = 2 /\
      forall i, i < 2 ->
        exists lq la,
          nth_error
            (split newline ("Q1" ++ nl ++ "A1" ++ nl ++ "Q2" ++ nl ++ "A2"))
            (2 * i) = Some lq /\
          nth_error
            (split newline ("Q1" ++ nl ++ "A1" ++ nl ++ "Q2" ++ nl ++ "A2"))
            (2 * i + 1) = Some la /\
          nth_error rs i = Some (qa_dict (strip lq) (strip la)).
Proof.
  split; [reflexivity |].
  apply (C2_even_line_count
           ("Q1" ++ nl ++ "A1" ++ nl ++ "Q2" ++ nl ++ "A2") 2).
  reflexivity.
Defined.

(** C3, as the specification states it, fails on the empty string: its split
    is the single empty line, of odd length [2 * 0 + 1], and the segmenter
    produces no record instead of [0 + 1]. *)
Lemma C3_counterexample_empty_string :
  List.length (split newline "") = 2 * 0 + 1 /\
  Segmenter "" = Ok [] /\
  ~ (exists rs, Segmenter "" = Ok rs /\ List.length rs = 0 + 1).
Proof.
  repeat split.
  intros [rs [H Hlen]]. simpl in H. injection H as <-. discriminate.
Qed.

(** C3 (amended): for every non-empty input whose newline split has odd
    length [2n+1], the segmenter produces exactly [n+1] records, and the last
    one has the last line, stripped, as question and an empty answer. *)
Theorem C3_odd_line_count (s : string) (n : nat) :
  s <> "" ->
  List.length (split newline s) = 2 * n + 1 ->
  exists rs,
    Segmenter s = Ok rs /\ List.length rs = n + 1 /\
    exists last_line,
      nth_error (split newline s) (2 * n) = Some last_line /\
      nth_error rs n = Some (qa_dict (strip last_line) "").
Proof.
  intros Hne Hlen. unfold Segmenter.
  destruct s as [| c s]; [congruence |]. cbn [truthy].
  rewrite pair_lines_closed, Hlen, pairs_count_odd.
  eexists; split; [reflexivity | split].
  - now rewrite length_map, length_seq.
  - destruct (nth_error_lt (split newline (String c s)) (2 * n))
      as [l Hl]; [lia |].
    exists l. split; [exact Hl |].
    rewrite nth_pair_at by lia. unfold pair_at.
    replace (0 + n * 2) with (2 * n) by lia.
    rewrite (field_some _ _ _ Hl). unfold field.
    assert (E : nth_error (split newline (String c s)) (2 * n + 1) = None)
      by (apply nth_error_None; lia).
    now rewrite E.
Qed.

Lemma C3_odd_line_count_witness :
  "Q1" ++ nl ++ "A1" ++ nl ++ "Q2" <> "" /\
  List.length (split newline ("Q1" ++ nl ++ "A1" ++ nl ++ "Q2")) = 2 * 1 + 1 /\
  exists rs,
    Segmenter ("Q1" ++ nl ++ "A1" ++ nl ++ "Q2") = Ok rs /\
    List.length rs = 1 + 1 /\
    exists last_line,
      nth_error (split newline ("Q1" ++ nl ++ "A1" ++ nl ++ "Q2")) (2 * 1)
      = Some last_line /\
      nth_error rs 1 = Some (qa_dict (strip last_line) "").
Proof.
  split; [discriminate |]. split; [reflexivity |].
  apply (C3_odd_line_count ("Q1" ++ nl ++ "A1" ++ nl ++ "Q2") 1).
  - discriminate.
  - reflexivity.
Defined.

(** C7: the segmenter is total.  Every input string gives a sequence of
    records and never an exception; both reads of a loop iteration are
    guarded, so each iteration succeeds whatever the index and the lines. *)
Theorem C7_segmenter_total :
  (forall s : string, exists rs, Segmenter s = Ok rs) /\
  (forall (lines : list string) (i : nat) (qa_pairs : list dict),
      exists qa_pairs', pair_step lines i qa_pairs = Ok qa_pairs').
Proof.
  split.
  - intros s. unfold Segmenter. destruct (truthy s).
    + rewrite pair_lines_closed. eauto.
    + unfold ret. eauto.
  - intros lines i acc. rewrite pair_step_ok. eauto.
Qed.

(* ===================================================================== *)
(** * Properties of the exporters *)

Section TryExcept.

Lemma fst_try_export (body : result bytes) (prefix : string) (ui : UI) :
  fst (try_export body prefix ui) = returned body.
Proof.
  unfold try_export, returned.
  destruct body as [output | e]; [reflexivity |].
  now destruct (is_Exception e).
Qed.

Lemma returned_artifact (body : result bytes) (output : bytes) :
  returned body = Ok (Some output) <-> body = Ok output.
Proof.
  unfold returned. split.
  - destruct body as [o | e].
    + now intros [= ->].
    + destruct (is_Exception e); discriminate.
  - now intros ->.
Qed.

Lemma try_export_caught (body : result bytes) (prefix : string) (ui : UI)
      (e : exn) :
  body = Raise e -> is_Exception e = true ->
  try_export body prefix ui = (Ok None, st_error (prefix ++ str e) ui).
Proof.
  intros -> He. unfold try_export. now rewrite He.
Qed.

End TryExcept.


(** ** The document *)

Section DocumentFacts.

Variable xml_message : string.

Lemma word_step (q a : string) (doc : Document) :
  xml_compatible q = true -> xml_compatible a = true ->
  (q' <- dict_getitem (qa_dict q a) "Question" ;;
   doc' <- add_heading xml_message q' 1 doc ;;
   a' <- dict_getitem (qa_dict q a) "Answer" ;;
   add_paragraph xml_message a' doc')
  = Ok (doc ++ qa_blocks (q, a))%list.
Proof.
  intros Hq Ha.
  change (dict_getitem (qa_dict q a) "Question") with (Ok q).
  change (dict_getitem (qa_dict q a) "Answer") with (Ok a).
  cbn [bind]. unfold add_heading, add_paragraph, add_run.
  cbn [Nat.leb]. rewrite Hq. cbn [bind ret]. rewrite Ha. cbn [bind ret].
  unfold qa_blocks. cbn [fst snd]. now rewrite <- app_assoc.
Qed.

Lemma word_step_refused (q a : string) (doc : Document) :
  xml_compatible q && xml_compatible a = false ->
  (q' <- dict_getitem (qa_dict q a) "Question" ;;
   doc' <- add_heading xml_message q' 1 doc ;;
   a' <- dict_getitem (qa_dict q a) "Answer" ;;
   add_paragraph xml_message a' doc')
  = Raise (ValueError xml_message).
Proof.
  intros H.
  change (dict_getitem (qa_dict q a) "Question") with (Ok q).
  change (dict_getitem (qa_dict q a) "Answer") with (Ok a).
  cbn [bind]. unfold add_heading, add_paragraph, add_run. cbn [Nat.leb].
  destruct (xml_compatible q); cbn [bind ret]; [| reflexivity].
  cbn [andb] in H. now rewrite H.
Qed.

Lemma word_loop (rs : list (string * string)) :
  all_xml_compatible rs = true ->
  forall doc : Document,
    for_each (records rs)
      (fun qa doc =>
         q <- dict_getitem qa "Question" ;;
         doc <- add_heading xml_message q 1 doc ;;
         a <- dict_getitem qa "Answer" ;;
         add_paragraph xml_message a doc)
      doc
    = Ok (doc ++ flat_map qa_blocks rs)%list.
Proof.
  induction rs as [| [q a] rs IH]; intros Hrs doc.
  - cbn. now rewrite app_nil_r.
  - cbn [all_xml_compatible forallb fst snd] in Hrs.
    apply andb_prop in Hrs as [Hqa Hrs]. apply andb_prop in Hqa as [Hq Ha].
    change (records ((q, a) :: rs)) with (qa_dict q a :: records rs).
    cbn [for_each]. rewrite (word_step q a doc Hq Ha). cbn [bind].
    rewrite (IH Hrs). cbn [flat_map]. now rewrite <- app_assoc.
Qed.

Lemma word_loop_refused (rs : list (string * string)) :
  all_xml_compatible rs = false ->
  forall doc : Document,
    for_each (records rs)
      (fun qa doc =>
         q <- dict_getitem qa "Question" ;;
         doc <- add_heading xml_message q 1 doc ;;
         a <- dict_getitem qa "Answer" ;;
         add_paragraph xml_message a doc)
      doc
    = Raise (ValueError xml_message).
Proof.
  induction rs as [| [q a] rs IH]; intros Hrs doc; [discriminate |].
  cbn [all_xml_compatible forallb fst snd] in Hrs.
  change (records ((q, a) :: rs)) with (qa_dict q a :: records rs).
  cbn [for_each].
  destruct (xml_compatible q && xml_compatible a) eqn:Hqa.
  - apply andb_prop in Hqa as [Hq Ha].
    rewrite (word_step q a doc Hq Ha). cbn [bind]. now apply IH.
  - now rewrite (word_step_refused q a doc Hqa).
Qed.

Lemma title_heading (doc : Document) :
  add_heading xml_message "Interview Questions and Answers" 0 doc
  = Ok (doc ++ [Heading 0 [Text title]])%list.
Proof. reflexivity. Qed.

Lemma word_document_closed (rs : list (string * string)) :
  all_xml_compatible rs = true ->
  word_document xml_message (records rs)
  = Ok (Heading 0 [Text title] :: flat_map qa_blocks rs).
Proof.
  intros Hrs. unfold word_document. rewrite title_heading. cbn [bind].
  now rewrite (word_loop rs Hrs).
Qed.

Lemma word_document_refused (rs : list (string * string)) :
  all_xml_compatible rs = false ->
  word_document xml_message (records rs) = Raise (ValueError xml_message).
Proof.
  intros Hrs. unfold word_document. rewrite title_heading. cbn [bind].
  now apply word_loop_refused.
Qed.

Lemma length_qa_blocks (rs : list (string * string)) :
  List.length (flat_map qa_blocks rs) = 2 * List.length rs.
Proof.
  induction rs as [| r rs IH]; cbn [flat_map qa_blocks List.length app];
    [reflexivity | rewrite IH; lia].
Qed.

Lemma nth_qa_blocks (rs : list (string * string)) :
  forall i q a,
    nth_error rs i = Some (q, a) ->
    nth_error (flat_map qa_blocks rs) (2 * i) = Some (Heading 1 (run_items q))
    /\ nth_error (flat_map qa_blocks rs) (2 * i + 1)
       = Some (Paragraph (run_items a)).
Proof.
  induction rs as [| r rs IH]; intros i q a Hi.
  - destruct i; discriminate.
  - destruct i as [| i].
    + injection Hi as ->. split; reflexivity.
    + cbn [nth_error] in Hi. destruct (IH i q a Hi) as [Hq Ha].
      replace (2 * S i) with (S (S (2 * i))) by lia.
      replace (S (S (2 * i)) + 1) with (S (S (2 * i + 1))) by lia.
      cbn [flat_map qa_blocks app nth_error]. now split.
Qed.

Lemma code_point (c : ascii) (n : nat) :
  (nat_of_ascii c =? n)%nat = true -> c = ascii_of_nat n.
Proof.
  intros H. apply Nat.eqb_eq in H. rewrite <- H.
  symmetry. apply ascii_nat_embedding.
Qed.

(** Read back, the content of a run is the text, each carriage return
    having become a line feed. *)
Lemma text_of_run_items (s : string) : text_of (run_items s) = cr_to_lf s.
Proof.
  induction s as [| c s IH]; [reflexivity |].
  cbn [run_items cr_to_lf].
  destruct (nat_of_ascii c =? 9)%nat eqn:E9.
  - apply code_point in E9. subst c. cbn [text_of]. now rewrite IH.
  - destruct (nat_of_ascii c =? 10)%nat eqn:E10.
    + apply code_point in E10. subst c. cbn [orb text_of]. now rewrite IH.
    + destruct (nat_of_ascii c =? 13)%nat eqn:E13; cbn [orb].
      * cbn [text_of]. now rewrite IH.
      * rewrite <- IH.
        destruct (run_items s) as [| [t | |] items]; reflexivity.
Qed.

End DocumentFacts.

(** C6, as the specification states it, fails on a record whose question
    holds a control character that XML refuses, here a vertical tab: no
    document is made, and the exporter returns [None] although the
    serializer would succeed on any document. *)
Lemma C6_counterexample_control_character :
  word_document (xml_incompatible release_messages)
    (records [("Q" ++ vertical_tab ++ "1", "A1")])
  = Raise (ValueError (xml_incompatible release_messages)) /\
  fst (export_to_word nat release_messages constant_save
         (records [("Q" ++ vertical_tab ++ "1", "A1")]) 0 [])
  = Ok None.
Proof. split; reflexivity. Qed.

(** C6 (amended): for every sequence of records whose texts hold no control
    character that XML refuses (those below U+0020 other than tab, line feed
    and carriage return), the document exporter writes the title heading
    "Interview Questions and Answers" and then, for each record in sequence
    order, a level-1 heading with its question and a paragraph with its
    answer (a tab stored as a tab element, a carriage return as a line
    break, so that the text reads back with line feeds for carriage
    returns); empty questions and answers get their empty heading and
    paragraph, no record is skipped, and the bytes returned are the
    serialization of that document. *)
Theorem C6_document_layout
        (msgs : LibraryMessages) (rs : list (string * string)) :
  all_xml_compatible rs = true ->
  exists doc : Document,
    word_document (xml_incompatible msgs) (records rs) = Ok doc /\
    List.length doc = 1 + 2 * List.length rs /\
    nth_error doc 0
    = Some (Heading 0 [Text "Interview Questions and Answers"]) /\
    (forall i q a,
        nth_error rs i = Some (q, a) ->
        nth_error doc (1 + 2 * i) = Some (Heading 1 (run_items q)) /\
        nth_error doc (2 + 2 * i) = Some (Paragraph (run_items a)) /\
        text_of (run_items q) = cr_to_lf q /\
        text_of (run_items a) = cr_to_lf a) /\
    (forall (Env : Type) (docx_save : Env -> Document -> result bytes)
            (env : Env) (ui : UI) (output : bytes),
        fst (export_to_word Env msgs docx_save (records rs) env ui)
        = Ok (Some output)
        <-> docx_save env doc = Ok output).
Proof.
  intros Hrs.
  exists (Heading 0 [Text title] :: flat_map qa_blocks rs).
  split; [now apply word_document_closed |].
  split; [cbn [List.length]; now rewrite length_qa_blocks |].
  split; [reflexivity |].
  split.
  - intros i q a Hi. destruct (nth_qa_blocks rs i q a Hi) as [Hq Ha].
    replace (2 + 2 * i) with (S (2 * i + 1)) by lia.
    cbn [Nat.add nth_error]. repeat split; trivial; apply text_of_run_items.
  - intros Env docx_save env ui output. unfold export_to_word, word_try.
    rewrite fst_try_export, (word_document_closed _ rs Hrs). cbn [bind].
    apply returned_artifact.
Qed.

Lemma C6_document_layout_witness :
  all_xml_compatible [("Q1", "A1"); ("", "")] = true /\
  exists doc : Document,
    word_document (xml_incompatible release_messages)
      (records [("Q1", "A1"); ("", "")]) = Ok doc /\
    List.length doc = 1 + 2 * List.length [("Q1", "A1"); ("", "")] /\
    nth_error doc 0
    = Some (Heading 0 [Text "Interview Questions and Answers"]) /\
    (forall i q a,
        nth_error [("Q1", "A1"); ("", "")] i = Some (q, a) ->
        nth_error doc (1 + 2 * i) = Some (Heading 1 (run_items q)) /\
        nth_error doc (2 + 2 * i) = Some (Paragraph (run_items a)) /\
        text_of (run_items q) = cr_to_lf q /\
        text_of (run_items a) = cr_to_lf a) /\
    (forall (Env : Type) (docx_save : Env -> Document -> result bytes)
            (env : Env) (ui : UI) (output : bytes),
        fst (export_to_word Env release_messages docx_save
               (records [("Q1", "A1"); ("", "")]) env ui)
        = Ok (Some output)
        <-> docx_save env doc = Ok output).
Proof.
  split; [reflexivity |].
  apply (C6_document_layout release_messages [("Q1", "A1"); ("", "")]).
  reflexivity.
Defined.

Example document_of_two_records :
  word_document (xml_incompatible release_messages)
    (records [("Q1", "A1"); ("", "")])
  = Ok [Heading 0 [Text "Interview Questions and Answers"];
        Heading 1 [Text "Q1"]; Paragraph [Text "A1"];
        Heading 1 []; Paragraph []].
Proof. reflexivity. Qed.

(** A dictionary without the key "Answer" stops the loop with a [KeyError],
    which the exporter reports. *)
Example document_key_error :
  export_to_word unit release_messages (failing MemoryError)
    [[("Question", "Q1")]] tt []
  = (Ok None, ["Error exporting to Word: 'Answer'"]).
Proof. reflexivity. Qed.

(** ** The table *)

Section TableFacts.







Lemma check_string_refused (s : string) :
  writable s = false -> check_string s = inr (cut s).
Proof.
  unfold writable, check_string, cut. intros H.
  apply negb_false_iff in H. now rewrite H.
Qed.









End TableFacts.


(** It fails too on a record with a character that openpyxl refuses, here a
    vertical tab in the first answer: the exporter returns [None] although
    the save succeeds, and the sheet has no row for the second record. *)
Example table_with_control_character :
  fst (export_to_excel nat release_messages constant_save
         (records [("Q1", "A" ++ vertical_tab); ("Q2", "A2")]) 0 [])
  = Ok None /\
  excel_refused (records [("Q1", "A" ++ vertical_tab); ("Q2", "A2")])
  = Some ("A" ++ vertical_tab) /\
  excel_workbook (records [("Q1", "A" ++ vertical_tab); ("Q2", "A2")])
  = [mkSheet "Interview Questions"
       [mkCell 0 0 (XStr "Question"); mkCell 0 1 (XStr "Answer");
        mkCell 1 0 (XStr "Q1"); mkCell 2 0 (XStr "Q2")]].
Proof. repeat split. Qed.



Example sheet_of_two_records :
  excel_workbook (records [("Q1", "A1"); ("Q2", "")])
  = [mkSheet "Interview Questions"
       [mkCell 0 0 (XStr "Question"); mkCell 0 1 (XStr "Answer");
        mkCell 1 0 (XStr "Q1"); mkCell 2 0 (XStr "Q2");
        mkCell 1 1 (XStr "A1"); mkCell 2 1 (XStr "")]].
Proof. reflexivity. Qed.


(** ** Failures *)

(** C4, as the specification states it, fails: when the serializer raises,
    the value returned is [None] whatever the cause and whichever the
    exporter, so it carries neither the target format nor the cause. *)
Lemma C4_counterexample_none_for_every_failure :
  fst (export_to_excel unit release_messages
         (failing (ValueError "disk full")) (records [("Q1", "A1")]) tt [])
  = Ok None /\
  fst (export_to_excel unit release_messages (failing MemoryError)
         (records [("Q1", "A1")]) tt [])
  = Ok None /\
  fst (export_to_word unit release_messages (failing MemoryError)
         (records [("Q1", "A1")]) tt [])
  = Ok None /\
  ValueError "disk full" <> MemoryError.
Proof.
  repeat split. discriminate.
Qed.

(** C4 (amended): when the body of the [try] of an exporter raises an
    [Exception], the exporter returns [None], no artifact and no exception;
    the target format and the cause go to the user in one [st.error]
    message, "Error exporting to Excel: <cause>" or "Error exporting to
    Word: <cause>", the cause printed as [str] prints the exception. *)
Theorem C4_failure_reported_and_contained
        (Env : Type) (msgs : LibraryMessages)
        (xlsx_save : Env -> Workbook -> result bytes)
        (docx_save : Env -> Document -> result bytes)
        (data : list dict) (env : Env) (ui : UI) (e_xlsx e_docx : exn) :
  is_Exception e_xlsx = true ->
  is_Exception e_docx = true ->
  excel_try Env msgs xlsx_save data env = Raise e_xlsx ->
  word_try Env msgs docx_save data env = Raise e_docx ->
  export_to_excel Env msgs xlsx_save data env ui
  = (Ok None, st_error ("Error exporting to Excel: " ++ str e_xlsx) ui) /\
  export_to_word Env msgs docx_save data env ui
  = (Ok None, st_error ("Error exporting to Word: " ++ str e_docx) ui).
Proof.
  intros Hx Hd Fx Fd. split.
  - unfold export_to_excel. now rewrite (try_export_caught _ _ _ _ Fx Hx).
  - unfold export_to_word. now rewrite (try_export_caught _ _ _ _ Fd Hd).
Qed.

Lemma C4_failure_reported_and_contained_witness :
  export_to_excel unit release_messages (failing (ValueError "disk full"))
    [[("Question", "Q1")]] tt ["earlier message"]
  = (Ok None, ["earlier message"; "Error exporting to Excel: disk full"]) /\
  export_to_word unit release_messages (failing MemoryError)
    [[("Question", "Q1")]] tt ["earlier message"]
  = (Ok None, ["earlier message"; "Error exporting to Word: 'Answer'"]).
Proof.
  apply (C4_failure_reported_and_contained unit release_messages
           (failing (ValueError "disk full")) (failing MemoryError)
           [[("Question", "Q1")]] tt ["earlier message"]
           (ValueError "disk full") (KeyError "Answer"));
    reflexivity.
Defined.

(** The causes inside the exporters themselves: a text that openpyxl
    refuses, when the save of the sheet written so far succeeds, and a text
    that XML refuses. *)
Lemma excel_export_refused_text
      (Env : Type) (msgs : LibraryMessages)
      (xlsx_save : Env -> Workbook -> result bytes)
      (data : list dict) (env : Env) (ui : UI) (bad : string)
      (output : bytes) :
  excel_refused data = Some bad ->
  xlsx_save env (excel_workbook data) = Ok output ->
  export_to_excel Env msgs xlsx_save data env ui
  = (Ok None,
     st_error ("Error exporting to Excel: " ++ illegal_character msgs bad) ui).
Proof.
  intros Hbad Hsave. unfold export_to_excel, excel_try.
  now rewrite Hsave, Hbad.
Qed.

Lemma word_export_refused_text
      (Env : Type) (msgs : LibraryMessages)
      (docx_save : Env -> Document -> result bytes)
      (rs : list (string * string)) (env : Env) (ui : UI) :
  all_xml_compatible rs = false ->
  export_to_word Env msgs docx_save (records rs) env ui
  = (Ok None,
     st_error ("Error exporting to Word: " ++ xml_incompatible msgs) ui).
Proof.
  intros H. unfold export_to_word, word_try.
  now rewrite (word_document_refused _ rs H).
Qed.

(** [except Exception] lets through what is not an [Exception]. *)
Example keyboard_interrupt_propagates :
  export_to_excel unit release_messages (failing KeyboardInterrupt)
    (records [("Q1", "A1")]) tt []
  = (Raise KeyboardInterrupt, []).
Proof. reflexivity. Qed.

(** ** Byte identity *)

(** Two exports of the same records need not give the same bytes: with a
    serializer that stamps the time of the call into the archive, two calls
    at different times differ. *)
Example stamped_exports_differ :
  fst (export_to_excel nat release_messages stamping_save
         (records [("Q1", "A1")]) 0 [])
  <> fst (export_to_excel nat release_messages stamping_save
            (records [("Q1", "A1")]) 1 []).
Proof. discriminate. Qed.
(* ===================================================================== *)
(** * Further properties: the strings *)

Section StripFacts.

Lemma lstrip_first (s : string) (c : ascii) :
  first_char (lstrip s) = Some c -> isspace c = false.
Proof.
  induction s as [| d s IH]; cbn [lstrip]; [discriminate |].
  destruct (isspace d) eqn:E; [exact IH |].
  cbn [first_char]. now intros [= <-].
Qed.

Lemma rstrip_first (s : string) (c : ascii) :
  first_char (rstrip s) = Some c -> first_char s = Some c.
Proof.
  destruct s as [| d s]; cbn [rstrip]; [discriminate |].
  destruct (rstrip s); [destruct (isspace d) |]; cbn [first_char];
    congruence.
Qed.

Lemma last_char_nonempty (c : ascii) (s : string) :
  exists d, last_char (String c s) = Some d.
Proof.
  revert c. induction s as [| c' s IH]; intros c; [now exists c |].
  destruct (IH c') as [d Hd]. exists d. exact Hd.
Qed.

Lemma last_char_cons (c : ascii) (s : string) :
  last_char (String c s)
  = match last_char s with Some d => Some d | None => Some c end.
Proof.
  destruct s as [| d s]; [reflexivity |].
  change (last_char (String c (String d s))) with (last_char (String d s)).
  destruct (last_char_nonempty d s) as [x ->]. reflexivity.
Qed.

Lemma rstrip_last (s : string) (c : ascii) :
  last_char (rstrip s) = Some c -> isspace c = false.
Proof.
  induction s as [| d s IH]; cbn [rstrip]; [discriminate |].
  destruct (rstrip s) as [| e r] eqn:E.
  - destruct (isspace d) eqn:Ed; cbn [last_char]; [discriminate |].
    now intros [= <-].
  - rewrite last_char_cons.
    destruct (last_char (String e r)) as [x |] eqn:L.
    + intros [= <-]. now apply IH.
    + rewrite last_char_cons in L. destruct (last_char r); discriminate.
Qed.

Lemma strip_trimmed (s : string) : trimmed (strip s).
Proof.
  unfold trimmed, strip.
  destruct (first_char (rstrip (lstrip s))) as [c |] eqn:F.
  - destruct (last_char (rstrip (lstrip s))) as [d |] eqn:L.
    + split.
      * apply (lstrip_first s). now apply rstrip_first.
      * now apply (rstrip_last (lstrip s)).
    + destruct (rstrip (lstrip s)) as [| x r]; [reflexivity |].
      rewrite last_char_cons in L. destruct (last_char r); discriminate.
  - destruct (rstrip (lstrip s)); [reflexivity | discriminate].
Qed.

Lemma rstrip_fixed (s : string) (d : ascii) :
  last_char s = Some d -> isspace d = false -> rstrip s = s.
Proof.
  induction s as [| c s IH]; [discriminate |].
  rewrite last_char_cons. intros L Hd. cbn [rstrip].
  destruct s as [| c' s'].
  - cbn in L. injection L as ->. cbn [rstrip]. now rewrite Hd.
  - destruct (last_char (String c' s')) as [x |] eqn:L'.
    + injection L as ->. rewrite (IH eq_refl Hd). reflexivity.
    + rewrite last_char_cons in L'. destruct (last_char s'); discriminate.
Qed.

Lemma trimmed_fixed (s : string) : trimmed s -> strip s = s.
Proof.
  unfold trimmed, strip. destruct s as [| c s]; [reflexivity |].
  cbn [first_char].
  destruct (last_char (String c s)) as [d |] eqn:L; [| discriminate].
  intros [Hc Hd]. cbn [lstrip]. rewrite Hc.
  now apply (rstrip_fixed _ d).
Qed.

Lemma lstrip_all_space (s : string) :
  all_space s = true -> lstrip s = "".
Proof.
  induction s as [| c s IH]; [reflexivity |].
  cbn [all_space lstrip]. intros H. apply andb_prop in H as [Hc Hs].
  rewrite Hc. now apply IH.
Qed.

Lemma rstrip_empty (s : string) : rstrip s = "" -> all_space s = true.
Proof.
  induction s as [| c s IH]; [reflexivity |].
  cbn [rstrip all_space].
  destruct (rstrip s) as [| d r]; [| discriminate].
  destruct (isspace c); [| discriminate].
  intros _. now rewrite IH.
Qed.

Lemma lstrip_empty (s : string) : lstrip s = "" -> all_space s = true.
Proof.
  induction s as [| c s IH]; [reflexivity |].
  cbn [lstrip all_space]. destruct (isspace c); [exact IH | discriminate].
Qed.

Lemma lstrip_suffix_space (s : string) :
  all_space (lstrip s) = true -> all_space s = true.
Proof.
  induction s as [| c s IH]; [reflexivity |].
  cbn [lstrip]. destruct (isspace c) eqn:E.
  - intros H. cbn [all_space]. now rewrite E, IH.
  - cbn [all_space]. now rewrite E.
Qed.

End StripFacts.

(** X1: [strip] gives a text that is empty or begins and ends with a
    character that is no space; stripping it again changes nothing. *)
Theorem X1_strip_trims_once_and_for_all (s : string) :
  trimmed (strip s) /\ strip (strip s) = strip s.
Proof.
  split; [apply strip_trimmed |].
  apply trimmed_fixed, strip_trimmed.
Qed.

(** X2: [strip] gives the empty text exactly for the texts made of spaces
    only (the empty one among them). *)
Theorem X2_strip_empty_iff_blank (s : string) :
  strip s = "" <-> all_space s = true.
Proof.
  unfold strip. split.
  - intros H. apply lstrip_suffix_space. now apply rstrip_empty.
  - intros H. now rewrite (lstrip_all_space s H).
Qed.

Section SplitFacts.

Variable sep : ascii.

Lemma concat_cons (x : string) (xs : list string) :
  xs <> [] ->
  String.concat (String sep "") (x :: xs)
  = x ++ String sep (String.concat (String sep "") xs).
Proof.
  destruct xs as [| y ys]; [congruence | reflexivity].
Qed.

Lemma split_join (s : string) :
  String.concat (String sep "") (split sep s) = s.
Proof.
  induction s as [| c s IH]; [reflexivity |].
  cbn [split]. destruct (Ascii.eqb_spec c sep) as [-> | Hc].
  - rewrite concat_cons by apply split_nonempty. now rewrite IH.
  - destruct (split sep s) as [| f fs] eqn:E.
    + now apply split_nonempty in E.
    + destruct fs as [| g gs].
      * cbn [String.concat] in *. now rewrite IH.
      * rewrite concat_cons in * by discriminate.
        cbn [append]. now rewrite IH.
Qed.

Lemma split_no_sep (s : string) :
  Forall (fun line => occurs sep line = false) (split sep s).
Proof.
  induction s as [| c s IH]; [repeat constructor |].
  cbn [split]. destruct (Ascii.eqb c sep) eqn:Ec.
  - constructor; [reflexivity | exact IH].
  - destruct (split sep s) as [| f fs]; [repeat constructor |].
    + cbn [occurs]. now rewrite Ec.
    + inversion IH as [| ? ? Hf Hfs]; subst.
      constructor; [| exact Hfs]. cbn [occurs]. now rewrite Ec.
Qed.

Lemma split_length (s : string) :
  List.length (split sep s) = S (count_char sep s).
Proof.
  induction s as [| c s IH]; [reflexivity |].
  cbn [split count_char]. destruct (Ascii.eqb c sep).
  - cbn [List.length]. now rewrite IH.
  - destruct (split sep s) as [| f fs]; cbn [List.length] in *; lia.
Qed.

End SplitFacts.

(** X3: the split at newlines loses nothing and leaves no newline behind:
    joining the lines with newlines gives the text back, no line contains a
    newline, and there is one line more than there are newlines. *)
Theorem X3_split_lines_round_trip (s : string) :
  String.concat nl (split newline s) = s /\
  Forall (fun line => occurs newline line = false) (split newline s) /\
  List.length (split newline s) = S (count_char newline s).
Proof.
  split; [apply split_join |].
  split; [apply split_no_sep | apply split_length].
Qed.

(* ===================================================================== *)
(** * Further properties: the pairing *)

Section PairingFacts.

Lemma list_pair_ind {A} (P : list A -> Prop) :
  P [] -> (forall x, P [x]) -> (forall x y l, P l -> P (x :: y :: l)) ->
  forall l, P l.
Proof.
  intros H0 H1 H2 l.
  enough (H : P l /\ forall x, P (x :: l)) by apply H.
  induction l as [| y l [IHl IHc]]; split; auto.
Qed.

Lemma pairs_count_step (n : nat) :
  pairs_count (S (S n)) = S (pairs_count n).
Proof.
  unfold pairs_count.
  replace (S (S n) - 0 + 2 - 1) with (1 * 2 + (n - 0 + 2 - 1)) by lia.
  now rewrite Nat.div_add_l by lia.
Qed.

Lemma pair_at_step (q a : string) (rest : list string) (k : nat) :
  pair_at (q :: a :: rest) (S k) = pair_at rest k.
Proof.
  unfold pair_at, field.
  replace (0 + S k * 2) with (S (S (0 + k * 2))) by lia.
  replace (S (S (0 + k * 2)) + 1) with (S (S (0 + k * 2 + 1))) by lia.
  reflexivity.
Qed.

Lemma pairing_structural (lines : list string) :
  map (pair_at lines) (seq 0 (pairs_count (List.length lines)))
  = records (pair_up lines).
Proof.
  induction lines as [| q | q a rest IH] using list_pair_ind.
  - reflexivity.
  - reflexivity.
  - cbn [List.length]. rewrite pairs_count_step. cbn [seq map].
    rewrite <- seq_shift, map_map.
    rewrite (map_ext _ (pair_at rest)) by (intros k; apply pair_at_step).
    rewrite IH. reflexivity.
Qed.

Lemma pair_lines_structural (s : string) :
  pair_lines s = Ok (records (pair_up (split newline s))).
Proof.
  now rewrite pair_lines_closed, pairing_structural.
Qed.

Lemma pair_up_flat (lines : list string) :
  flat_map (fun p => [fst p; snd p]) (pair_up lines)
  = (map strip lines
       ++ (if Nat.odd (List.length lines) then [""] else []))%list.
Proof.
  induction lines as [| q | q a rest IH] using list_pair_ind.
  - reflexivity.
  - reflexivity.
  - cbn [pair_up flat_map fst snd map app List.length]. rewrite IH.
    replace (Nat.odd (S (S (List.length rest))))
      with (Nat.odd (List.length rest)); [reflexivity |].
    now rewrite Nat.odd_succ_succ.
Qed.

Lemma length_pair_up (lines : list string) :
  List.length (pair_up lines) = pairs_count (List.length lines).
Proof.
  induction lines as [| q | q a rest IH] using list_pair_ind;
    [reflexivity | reflexivity |].
  cbn [pair_up List.length]. now rewrite pairs_count_step, IH.
Qed.

Lemma occurs_lstrip (c : ascii) (s : string) :
  occurs c s = false -> occurs c (lstrip s) = false.
Proof.
  induction s as [| d s IH]; [reflexivity |].
  cbn [lstrip]. destruct (isspace d); [| trivial].
  cbn [occurs]. intros H. apply orb_false_elim in H as [_ H]. now apply IH.
Qed.

Lemma occurs_rstrip (c : ascii) (s : string) :
  occurs c s = false -> occurs c (rstrip s) = false.
Proof.
  induction s as [| d s IH]; [reflexivity |].
  cbn [occurs rstrip]. intros H. apply orb_false_elim in H as [Hd Hs].
  specialize (IH Hs). destruct (rstrip s) as [| e r].
  - destruct (isspace d); [reflexivity |]. cbn [occurs]. now rewrite Hd.
  - change (occurs c (String d (String e r)))
      with (Ascii.eqb d c || occurs c (String e r)).
    now rewrite Hd, IH.
Qed.

Lemma occurs_strip (c : ascii) (s : string) :
  occurs c s = false -> occurs c (strip s) = false.
Proof.
  intros H. unfold strip. now apply occurs_rstrip, occurs_lstrip.
Qed.

Lemma pair_up_clean (lines : list string) :
  Forall (fun line => occurs newline line = false) lines ->
  Forall (fun p => clean (fst p) /\ clean (snd p)) (pair_up lines).
Proof.
  induction lines as [| q | q a rest IH] using list_pair_ind; intros H.
  - constructor.
  - inversion H as [| ? ? Hq _]; subst. repeat constructor.
    + apply strip_trimmed.
    + now apply occurs_strip.
  - inversion H as [| ? ? Hq H']; subst.
    inversion H' as [| ? ? Ha Hrest]; subst.
    constructor; [| now apply IH].
    cbn [fst snd]. repeat split;
      try apply strip_trimmed; now apply occurs_strip.
Qed.

End PairingFacts.

(** X4: the loop over indices is the structural pairing, and no line is
    lost or moved: for a non-empty text, the questions and answers of the
    records, read in order, are the stripped lines in order, followed by one
    empty answer when the number of lines is odd. *)
Theorem X4_segmenter_keeps_every_line (s : string) :
  s <> "" ->
  exists ps : list (string * string),
    Segmenter s = Ok (records ps) /\
    ps = pair_up (split newline s) /\
    flat_map (fun p => [fst p; snd p]) ps
    = (map strip (split newline s)
         ++ (if Nat.odd (List.length (split newline s)) then [""] else []))%list.
Proof.
  intros Hs. exists (pair_up (split newline s)).
  split; [| split; [reflexivity | apply pair_up_flat]].
  unfold Segmenter. destruct s as [| c s]; [congruence |].
  cbn [truthy]. apply pair_lines_structural.
Qed.

Lemma X4_segmenter_keeps_every_line_witness :
  "Q1" ++ nl ++ " A1 " ++ nl ++ "Q2" <> "" /\
  exists ps : list (string * string),
    Segmenter ("Q1" ++ nl ++ " A1 " ++ nl ++ "Q2") = Ok (records ps) /\
    ps = pair_up (split newline ("Q1" ++ nl ++ " A1 " ++ nl ++ "Q2")) /\
    flat_map (fun p => [fst p; snd p]) ps
    = (map strip (split newline ("Q1" ++ nl ++ " A1 " ++ nl ++ "Q2"))
         ++ (if Nat.odd
                  (List.length
                     (split newline ("Q1" ++ nl ++ " A1 " ++ nl ++ "Q2")))
             then [""] else []))%list.
Proof.
  split; [discriminate |].
  apply (X4_segmenter_keeps_every_line ("Q1" ++ nl ++ " A1 " ++ nl ++ "Q2")).
  discriminate.
Defined.

(** X5: every dictionary that the segmenter makes has exactly the keys
    "Question" and "Answer", in this order, and both texts are trimmed and
    free of newlines. *)
Theorem X5_records_are_clean (s : string) :
  exists ps : list (string * string),
    Segmenter s = Ok (records ps) /\
    Forall (fun p => clean (fst p) /\ clean (snd p)) ps.
Proof.
  unfold Segmenter. destruct (truthy s).
  - exists (pair_up (split newline s)).
    split; [apply pair_lines_structural |].
    apply pair_up_clean, split_no_sep.
  - exists []. split; [reflexivity | constructor].
Qed.

(** X6: the number of records follows from the number of newlines [k] of the
    text: none for the empty text, and [(k + 2) / 2] otherwise, that is half
    the number of lines, rounded up. *)
Theorem X6_record_count (s : string) :
  exists rs : list dict,
    Segmenter s = Ok rs /\
    List.length rs
    = if truthy s then (count_char newline s + 2) / 2 else 0.
Proof.
  unfold Segmenter. destruct (truthy s).
  - eexists. split; [apply pair_lines_structural |].
    unfold records. rewrite length_map, length_pair_up, split_length.
    unfold pairs_count. f_equal. lia.
  - exists []. split; reflexivity.
Qed.

Section RangeFacts.

Lemma range_spec (start stop step i : nat) :
  0 < step ->
  In i (range start stop step)
  <-> start <= i < stop /\ (i - start) mod step = 0.
Proof.
  intros Hstep. unfold range. rewrite in_map_iff.
  set (n := (stop - start + step - 1) / step).
  assert (Hn : n * step <= stop - start + step - 1).
  { unfold n. rewrite Nat.mul_comm. apply Nat.Div0.mul_div_le. }
  split.
  - intros [k [<- Hk]]. apply in_seq in Hk.
    assert (S k * step <= n * step) by (apply Nat.mul_le_mono_r; lia).
    split; [cbn [Nat.mul] in *; nia |].
    replace (start + k * step - start) with (k * step) by lia.
    apply Nat.Div0.mod_mul.
  - intros [[Hlo Hhi] Hmod].
    apply Nat.Div0.div_exact in Hmod.
    exists ((i - start) / step). split; [nia |].
    apply in_seq. split; [lia |]. cbn [Nat.add].
    apply (Nat.div_le_lower_bound (stop - start + step - 1) step
             (S ((i - start) / step))); [lia | nia].
Qed.

End RangeFacts.

(** X7: [range(start, stop, step)] with a positive step holds exactly the
    numbers from [start] up to, not including, [stop] that lie a multiple of
    [step] above [start]. *)
Theorem X7_range_members (start stop step i : nat) :
  0 < step ->
  In i (range start stop step)
  <-> start <= i < stop /\ (i - start) mod step = 0.
Proof. apply range_spec. Qed.

Lemma X7_range_members_witness :
  0 < 2 /\
  (In 4 (range 0 5 2) <-> 0 <= 4 < 5 /\ (4 - 0) mod 2 = 0).
Proof.
  split; [lia |]. apply (X7_range_members 0 5 2 4). lia.
Defined.

(** X8: every index that the loop of line 206 visits is even and below the
    number of lines: the question of each record is read from a line that
    exists, and the alternative [else ""] of line 207 is never taken. *)
Theorem X8_question_line_exists (lines : list string) (i : nat) :
  In i (range 0 (List.length lines) 2) ->
  Nat.even i = true /\
  (i <? List.length lines)%nat = true /\
  exists line, getitem lines i = Ok line.
Proof.
  intros Hi. apply range_spec in Hi; [| lia].
  destruct Hi as [[_ Hlt] Hmod]. rewrite Nat.sub_0_r in Hmod.
  split; [| split].
  - apply Nat.even_spec. exists (i / 2).
    now apply Nat.Div0.div_exact in Hmod.
  - now apply Nat.ltb_lt.
  - unfold getitem. destruct (nth_error_lt lines i Hlt) as [l ->]. eauto.
Qed.

Lemma X8_question_line_exists_witness :
  In 2 (range 0 (List.length ["Q1"; "A1"; "Q2"]) 2) /\
  Nat.even 2 = true /\
  (2 <? List.length ["Q1"; "A1"; "Q2"])%nat = true /\
  exists line, getitem ["Q1"; "A1"; "Q2"] 2 = Ok line.
Proof.
  split; [cbn; auto |].
  apply (X8_question_line_exists ["Q1"; "A1"; "Q2"] 2). cbn. auto.
Defined.

(* ===================================================================== *)
(** * Further properties: from the text to the files *)

Section CompositionFacts.

Lemma for_each_app {X S} (xs ys : list X) (body : X -> S -> result S) (s : S) :
  for_each (xs ++ ys) body s = bind (for_each xs body s) (for_each ys body).
Proof.
  revert s. induction xs as [| x xs IH]; intros s; [reflexivity |].
  cbn [app for_each]. destruct (body x s) as [s' | e]; cbn [bind]; auto.
Qed.

Lemma word_document_missing_key
      (xml_message : string) (rs : list (string * string)) (d : dict)
      (rest : list dict) (key : string) :
  all_xml_compatible rs = true ->
  (forall q, dict_find d "Question" = Some q -> xml_compatible q = true) ->
  first_missing d = Some key ->
  word_document xml_message (records rs ++ d :: rest) = Raise (KeyError key).
Proof.
  unfold first_missing, word_document. intros Hrs Hq Hd.
  rewrite title_heading. cbn [bind].
  rewrite for_each_app, (word_loop _ rs Hrs). cbn [bind for_each].
  unfold dict_getitem at 1.
  destruct (dict_find d "Question") as [q |] eqn:Eq.
  - destruct (dict_find d "Answer") as [a |] eqn:Ea; [discriminate |].
    injection Hd as <-.
    cbn [bind]. unfold add_heading, add_run. cbn [Nat.leb].
    rewrite (Hq q eq_refl). cbn [bind ret].
    unfold dict_getitem. now rewrite Ea.
  - injection Hd as <-. reflexivity.
Qed.

Lemma first_missing_key (d : dict) (key : string) :
  first_missing d = Some key -> key = "Question" \/ key = "Answer".
Proof.
  unfold first_missing.
  destruct (dict_find d "Question"); [destruct (dict_find d "Answer") |];
    intros [= <-]; auto.
Qed.

Lemma Segmenter_structural (s : string) :
  Segmenter s
  = Ok (records (if truthy s then pair_up (split newline s) else [])).
Proof.
  unfold Segmenter. destruct (truthy s); [| reflexivity].
  apply pair_lines_structural.
Qed.

Lemma pair_up_nonempty (l : string) (ls : list string) :
  pair_up (l :: ls) <> [].
Proof. destruct ls; discriminate. Qed.

Lemma xml_lstrip (s : string) :
  xml_compatible s = true -> xml_compatible (lstrip s) = true.
Proof.
  induction s as [| c s IH]; [reflexivity |].
  cbn [lstrip]. destruct (isspace c); [| trivial].
  cbn [xml_compatible]. intros H. apply andb_prop in H as [_ H]. now apply IH.
Qed.

Lemma xml_rstrip (s : string) :
  xml_compatible s = true -> xml_compatible (rstrip s) = true.
Proof.
  induction s as [| c s IH]; [reflexivity |].
  cbn [xml_compatible rstrip]. intros H. apply andb_prop in H as [Hc Hs].
  specialize (IH Hs). destruct (rstrip s) as [| d r].
  - destruct (isspace c); [reflexivity |]. cbn [xml_compatible].
    now rewrite Hc.
  - change (xml_compatible (String c (String d r)))
      with (negb (xml_illegal c) && xml_compatible (String d r)).
    now rewrite Hc, IH.
Qed.

Lemma xml_strip (s : string) :
  xml_compatible s = true -> xml_compatible (strip s) = true.
Proof.
  intros H. unfold strip. now apply xml_rstrip, xml_lstrip.
Qed.

Lemma xml_split (sep : ascii) (s : string) :
  xml_compatible s = true ->
  Forall (fun line => xml_compatible line = true) (split sep s).
Proof.
  induction s as [| c s IH]; [repeat constructor |].
  cbn [xml_compatible split]. intros H. apply andb_prop in H as [Hc Hs].
  specialize (IH Hs). destruct (Ascii.eqb c sep).
  - constructor; [reflexivity | exact IH].
  - destruct (split sep s) as [| f fs].
    + repeat constructor. cbn [xml_compatible]. now rewrite Hc.
    + inversion IH as [| ? ? Hf Hfs]; subst.
      constructor; [| exact Hfs]. cbn [xml_compatible]. now rewrite Hc, Hf.
Qed.

Lemma xml_pair_up (lines : list string) :
  Forall (fun line => xml_compatible line = true) lines ->
  all_xml_compatible (pair_up lines) = true.
Proof.
  induction lines as [| q | q a rest IH] using list_pair_ind; intros H.
  - reflexivity.
  - inversion H as [| ? ? Hq _]; subst.
    cbn [pair_up all_xml_compatible forallb fst snd xml_compatible].
    now rewrite (xml_strip q Hq).
  - inversion H as [| ? ? Hq H']; subst.
    inversion H' as [| ? ? Ha Hrest]; subst.
    cbn [pair_up all_xml_compatible forallb fst snd].
    rewrite (xml_strip q Hq), (xml_strip a Ha). cbn [andb]. now apply IH.
Qed.

End CompositionFacts.

(** X9: for every text without a control character that XML refuses, the
    dictionaries of the segmenter give [export_to_word] neither a
    [KeyError] nor a [ValueError]: the document is built, with the title and
    two blocks per record, and only the serializer decides between an
    artifact and a failure. *)
Theorem X9_segmented_text_makes_a_document
        (msgs : LibraryMessages) (s : string) :
  xml_compatible s = true ->
  exists (rs : list dict) (doc : Document),
    Segmenter s = Ok rs /\
    word_document (xml_incompatible msgs) rs = Ok doc /\
    List.length doc = 1 + 2 * List.length rs /\
    forall (Env : Type) (docx_save : Env -> Document -> result bytes)
           (env : Env) (ui : UI),
      export_to_word Env msgs docx_save rs env ui
      = try_export (docx_save env doc) "Error exporting to Word: " ui.
Proof.
  intros Hs.
  set (ps := if truthy s then pair_up (split newline s) else []).
  assert (Hps : all_xml_compatible ps = true).
  { unfold ps. destruct (truthy s); [| reflexivity].
    now apply xml_pair_up, xml_split. }
  exists (records ps), (Heading 0 [Text title] :: flat_map qa_blocks ps).
  split; [apply Segmenter_structural |].
  split; [now apply word_document_closed |].
  split.
  - cbn [List.length]. rewrite length_qa_blocks.
    unfold records. rewrite length_map. reflexivity.
  - intros Env docx_save env ui. unfold export_to_word, word_try.
    now rewrite (word_document_closed _ ps Hps).
Qed.

Lemma X9_segmented_text_makes_a_document_witness :
  xml_compatible ("Q1" ++ nl ++ " A1") = true /\
  exists (rs : list dict) (doc : Document),
    Segmenter ("Q1" ++ nl ++ " A1") = Ok rs /\
    word_document (xml_incompatible release_messages) rs = Ok doc /\
    List.length doc = 1 + 2 * List.length rs /\
    forall (Env : Type) (docx_save : Env -> Document -> result bytes)
           (env : Env) (ui : UI),
      export_to_word Env release_messages docx_save rs env ui
      = try_export (docx_save env doc) "Error exporting to Word: " ui.
Proof.
  split; [reflexivity |].
  apply (X9_segmented_text_makes_a_document release_messages
           ("Q1" ++ nl ++ " A1")).
  reflexivity.
Defined.



(** X11: when, after any number of complete records whose texts XML
    accepts, a dictionary lacks the key "Question", or has it with a text
    that XML accepts and lacks "Answer", [export_to_word] returns [None] and
    reports the [KeyError] of that key; the records before it are not saved
    and the serializer plays no part. *)
Theorem X11_word_export_missing_key
        (Env : Type) (msgs : LibraryMessages)
        (docx_save : Env -> Document -> result bytes)
        (rs : list (string * string)) (d : dict) (rest : list dict)
        (key : string) (env : Env) (ui : UI) :
  all_xml_compatible rs = true ->
  (forall q, dict_find d "Question" = Some q -> xml_compatible q = true) ->
  first_missing d = Some key ->
  export_to_word Env msgs docx_save (records rs ++ d :: rest) env ui
  = (Ok None, st_error ("Error exporting to Word: '" ++ key ++ "'") ui).
Proof.
  intros Hrs Hq Hd. unfold export_to_word, word_try.
  rewrite (word_document_missing_key _ rs d rest key Hrs Hq Hd).
  destruct (first_missing_key d key Hd) as [-> | ->]; reflexivity.
Qed.

Lemma X11_word_export_missing_key_witness :
  all_xml_compatible [("Q1", "A1")] = true /\
  first_missing [("Question", "Q2")] = Some "Answer" /\
  export_to_word nat release_messages constant_save
    (records [("Q1", "A1")] ++ [("Question", "Q2")] :: []) 0 []
  = (Ok None, st_error ("Error exporting to Word: '" ++ "Answer" ++ "'") []).
Proof.
  split; [reflexivity |]. split; [reflexivity |].
  apply (X11_word_export_missing_key nat release_messages constant_save
           [("Q1", "A1")] [("Question", "Q2")] [] "Answer" 0 []).
  - reflexivity.
  - intros q [= <-]. reflexivity.
  - reflexivity.
Defined.
(* ===================================================================== *)
(** * Further properties: the generation and the page *)

Section PageFacts.

Variable Env : Type.
Variable msgs : LibraryMessages.
Variable send_message : Env -> string -> result string.
Variable xlsx_save : Env -> Workbook -> result bytes.
Variable docx_save : Env -> Document -> result bytes.

Lemma generate_ok (domain : string) (level : nat) (complexity : string)
      (env : Env) (ui : UI) (text : string) :
  send_message env (build_prompt domain level complexity) = Ok text ->
  generate_interview_questions Env send_message domain level complexity env ui
  = (Ok (strip text), ui).
Proof.
  intros H. unfold generate_interview_questions. now rewrite H.
Qed.

Lemma front_page_no_download (domain : string) (level : nat)
      (c : Complexity) (w : widget) :
  In w (front_page domain level c) -> is_download w = false.
Proof.
  unfold front_page. cbn [In].
  intros H; repeat (destruct H as [<- | H]; [reflexivity |]); contradiction.
Qed.

Lemma results_page_no_download (domain : string) (level : nat)
      (c : Complexity) (content : string) (w : widget) :
  In w (results_page domain level c content) -> is_download w = false.
Proof.
  unfold results_page. rewrite in_app_iff. intros [H | H].
  - now apply front_page_no_download in H.
  - cbn [In] in H.
    repeat (destruct H as [<- | H]; [reflexivity |]); contradiction.
Qed.

(** With a text that is not blank, [main] segments it and runs both export
    sections, the one after the other. *)
Lemma main_with_text (domain : string) (level : nat) (c : Complexity)
      (env : Env) (ui : UI) (text : string) :
  send_message env (build_prompt domain level (complexity_label c)) = Ok text ->
  strip text <> "" ->
  main Env msgs send_message xlsx_save docx_save domain level c env ui
  = let qa_pairs := records (pair_up (split newline (strip text))) in
    match excel_section Env msgs xlsx_save qa_pairs env
            (results_page domain level c (strip text)) ui with
    | (Ok page, ui) => word_section Env msgs docx_save qa_pairs env page ui
    | (Raise e, ui) => (Raise e, ui)
    end.
Proof.
  intros Hsend Hne. unfold main. rewrite (generate_ok _ _ _ _ _ _ Hsend).
  destruct (strip text) as [| ch content] eqn:E; [congruence |].
  cbn [truthy]. rewrite pair_lines_structural. cbv zeta.
  unfold export_options.
  destruct (split newline (String ch content)) as [| l ls] eqn:El;
    [now apply split_nonempty in El |].
  destruct (pair_up (l :: ls)) as [| p ps] eqn:Ep;
    [now apply pair_up_nonempty in Ep |].
  reflexivity.
Qed.

Lemma excel_try_ok (data : list dict) (env : Env) (output : bytes) :
  excel_try Env msgs xlsx_save data env = Ok output
  <-> excel_refused data = None /\
      xlsx_save env (excel_workbook data) = Ok output.
Proof.
  unfold excel_try.
  destruct (xlsx_save env (excel_workbook data)) as [o | e];
    destruct (excel_refused data) as [bad |]; split;
    try (intros [H1 H2]); try intros H; try discriminate; auto.
Qed.

Lemma word_try_ok (data : list dict) (env : Env) (output : bytes) :
  word_try Env msgs docx_save data env = Ok output
  <-> exists doc,
        word_document (xml_incompatible msgs) data = Ok doc /\
        docx_save env doc = Ok output.
Proof.
  unfold word_try.
  destruct (word_document (xml_incompatible msgs) data) as [doc | e];
    cbn [bind]; split.
  - intros H. now exists doc.
  - now intros [doc' [[= <-] H]].
  - discriminate.
  - now intros [doc' [H _]].
Qed.

End PageFacts.

(** X12: [generate_interview_questions] returns the stripped text of the
    response, which is trimmed; when the service raises an [Exception] it
    returns the empty text and shows "Error fetching questions: <cause>";
    an exception of the service that is no [Exception] passes through.
    Whatever it returns is trimmed. *)
Theorem X12_generated_text_is_trimmed
        (Env : Type) (send_message : Env -> string -> result string)
        (domain : string) (level : nat) (complexity : string)
        (env : Env) (ui : UI) :
  match send_message env (build_prompt domain level complexity) with
  | Ok text =>
      generate_interview_questions Env send_message domain level complexity
        env ui = (Ok (strip text), ui)
  | Raise e =>
      generate_interview_questions Env send_message domain level complexity
        env ui
      = if is_Exception e
        then (Ok "", st_error ("Error fetching questions: " ++ str e) ui)
        else (Raise e, ui)
  end /\
  forall content ui',
    generate_interview_questions Env send_message domain level complexity
      env ui = (Ok content, ui') ->
    trimmed content.
Proof.
  unfold generate_interview_questions.
  destruct (send_message env (build_prompt domain level complexity))
    as [text | e]; cbn [bind ret].
  - split; [reflexivity |]. intros content ui' [= <- _]. apply strip_trimmed.
  - destruct (is_Exception e); (split; [reflexivity |]).
    + intros content ui' [= <- _]. reflexivity.
    + discriminate.
Qed.

(** X13: when the service raises an [Exception], [main] shows the front page
    and the message "Error fetching questions: <cause>", and nothing else: no
    success message, no export, no download, whatever the serializers. *)
Theorem X13_failed_generation_shows_error_only
        (Env : Type) (msgs : LibraryMessages)
        (send_message : Env -> string -> result string)
        (xlsx_save : Env -> Workbook -> result bytes)
        (docx_save : Env -> Document -> result bytes)
        (domain : string) (level : nat) (c : Complexity)
        (env : Env) (ui : UI) (e : exn) :
  send_message env (build_prompt domain level (complexity_label c)) = Raise e ->
  is_Exception e = true ->
  main Env msgs send_message xlsx_save docx_save domain level c env ui
  = (Ok (front_page domain level c),
     st_error ("Error fetching questions: " ++ str e) ui).
Proof.
  intros Hsend He. unfold main, generate_interview_questions.
  rewrite Hsend. cbn [bind]. rewrite He. reflexivity.
Qed.

Lemma X13_failed_generation_shows_error_only_witness :
  main unit release_messages (fun _ _ => Raise (ValueError "quota exceeded"))
    (failing MemoryError) (failing MemoryError) "Python" 3 Basic tt []
  = (Ok (front_page "Python" 3 Basic),
     st_error ("Error fetching questions: " ++ str (ValueError "quota exceeded"))
       []).
Proof.
  apply (X13_failed_generation_shows_error_only unit release_messages
           (fun _ _ => Raise (ValueError "quota exceeded"))
           (failing MemoryError) (failing MemoryError) "Python" 3 Basic tt []
           (ValueError "quota exceeded")); reflexivity.
Defined.

(** X14: when the service answers a blank text (empty, or spaces and
    newlines only), [main] shows the front page and nothing else: no success
    message, no error, no export, no download. *)
Theorem X14_blank_answer_shows_nothing
        (Env : Type) (msgs : LibraryMessages)
        (send_message : Env -> string -> result string)
        (xlsx_save : Env -> Workbook -> result bytes)
        (docx_save : Env -> Document -> result bytes)
        (domain : string) (level : nat) (c : Complexity)
        (env : Env) (ui : UI) (text : string) :
  send_message env (build_prompt domain level (complexity_label c)) = Ok text ->
  all_space text = true ->
  main Env msgs send_message xlsx_save docx_save domain level c env ui
  = (Ok (front_page domain level c), ui).
Proof.
  intros Hsend Hblank. unfold main.
  rewrite (generate_ok _ _ _ _ _ _ _ _ Hsend).
  assert (E : strip text = "").
  { unfold strip. now rewrite (lstrip_all_space text Hblank). }
  rewrite E. reflexivity.
Qed.

Lemma X14_blank_answer_shows_nothing_witness :
  all_space (" " ++ nl ++ "  ") = true /\
  main nat release_messages (fun _ _ => Ok (" " ++ nl ++ "  "))
    constant_save constant_save "Python" 3 Basic 0 []
  = (Ok (front_page "Python" 3 Basic), []).
Proof.
  split; [reflexivity |].
  apply (X14_blank_answer_shows_nothing nat release_messages
           (fun _ _ => Ok (" " ++ nl ++ "  "))
           constant_save constant_save "Python" 3 Basic 0 []
           (" " ++ nl ++ "  ")); reflexivity.
Defined.



(** X16: [main] offers for download nothing but what a serializer returned:
    each download button on the page carries the bytes that the Excel
    serializer made of the workbook written without a refused text, or the
    Word serializer of the document built, from the records of the stripped,
    non-blank text of the service, under the file name and MIME type of that
    format. *)
Theorem X16_downloads_are_serializer_output
        (Env : Type) (msgs : LibraryMessages)
        (send_message : Env -> string -> result string)
        (xlsx_save : Env -> Workbook -> result bytes)
        (docx_save : Env -> Document -> result bytes)
        (domain : string) (level : nat) (c : Complexity)
        (env : Env) (ui ui' : UI) (page : list widget)
        (label : string) (data : bytes) (file_name mime : string) :
  main Env msgs send_message xlsx_save docx_save domain level c env ui
  = (Ok page, ui') ->
  In (DownloadButton label data file_name mime) page ->
  exists text,
    send_message env (build_prompt domain level (complexity_label c))
    = Ok text /\
    strip text <> "" /\
    ((file_name = xlsx_name /\ mime = xlsx_mime /\
      excel_refused (records (pair_up (split newline (strip text)))) = None /\
      xlsx_save env
        (excel_workbook (records (pair_up (split newline (strip text)))))
      = Ok data)
     \/
     (file_name = docx_name /\ mime = docx_mime /\
      exists doc,
        word_document (xml_incompatible msgs)
          (records (pair_up (split newline (strip text))))
        = Ok doc /\
        docx_save env doc = Ok data)).
Proof.
  intros Hmain Hin.
  destruct (send_message env (build_prompt domain level (complexity_label c)))
    as [text | e] eqn:Hsend.
  - exists text. split; [reflexivity |].
    destruct (string_dec (strip text) "") as [E | Hne].
    + unfold main in Hmain.
      rewrite (generate_ok _ _ _ _ _ _ _ _ Hsend) in Hmain.
      rewrite E in Hmain. cbn [truthy] in Hmain. injection Hmain as <- <-.
      apply front_page_no_download in Hin. discriminate.
    + split; [exact Hne |].
      rewrite (main_with_text _ _ _ _ _ _ _ _ _ _ _ Hsend Hne) in Hmain.
      cbv zeta in Hmain.
      unfold excel_section, word_section, export_to_excel, export_to_word
        in Hmain.
      destruct (excel_try Env msgs xlsx_save _ env) as [xl | ex] eqn:Hx;
        destruct (word_try Env msgs docx_save _ env) as [wd | ed] eqn:Hd;
        cbn [try_export] in Hmain;
        try destruct (is_Exception ex); try destruct (is_Exception ed);
        try discriminate;
        injection Hmain as <- <-;
        repeat rewrite in_app_iff in Hin; cbn [In] in Hin;
        repeat match type of Hin with
               | _ \/ _ => destruct Hin as [Hin | Hin]
               end;
        try contradiction; try discriminate;
        try (apply results_page_no_download in Hin; discriminate);
        injection Hin as <- <- <- <-;
        try (left; apply excel_try_ok in Hx; tauto);
        try (right; apply word_try_ok in Hd; tauto).
  - unfold main, generate_interview_questions in Hmain.
    rewrite Hsend in Hmain. cbn [bind] in Hmain.
    destruct (is_Exception e); [| discriminate].
    injection Hmain as <- <-.
    apply front_page_no_download in Hin. discriminate.
Qed.

Lemma X16_downloads_are_serializer_output_witness :
  exists text,
    (fun (_ : nat) (_ : string) => Ok ("Q1" ++ nl ++ "A1"))
      0 (build_prompt "Python" 3 (complexity_label Basic))
    = Ok text /\
    strip text <> "" /\
    ((xlsx_name = xlsx_name /\ xlsx_mime = xlsx_mime /\
      excel_refused (records (pair_up (split newline (strip text)))) = None /\
      constant_save 0
        (excel_workbook (records (pair_up (split newline (strip text)))))
      = Ok [x50; x4b]%byte)
     \/
     (xlsx_name = docx_name /\ xlsx_mime = docx_mime /\
      exists doc,
        word_document (xml_incompatible release_messages)
          (records (pair_up (split newline (strip text))))
        = Ok doc /\
        constant_save 0 doc = Ok [x50; x4b]%byte)).
Proof.
  apply (X16_downloads_are_serializer_output nat release_messages
           (fun _ _ => Ok ("Q1" ++ nl ++ "A1")) constant_save constant_save
           "Python" 3 Basic 0 [] []
           (results_page "Python" 3 Basic ("Q1" ++ nl ++ "A1")
              ++ [Markdown ExcelButton;
                  Success "Ready to download Excel file!";
                  DownloadButton "Download Interview Questions Excel"
                    [x50; x4b]%byte xlsx_name xlsx_mime;
                  Markdown WordButton;
                  Success "Ready to download Word file!";
                  DownloadButton "Download Interview Questions Word"
                    [x50; x4b]%byte docx_name docx_mime])%list
           "Download Interview Questions Excel" [x50; x4b]%byte
           xlsx_name xlsx_mime).
  - reflexivity.
  - apply in_or_app. right. cbn [In]. auto.
Defined.
Section FirstQuestion.

Lemma strip_keeps_first (c : ascii) (s : string) :
  isspace c = false -> first_char (strip (String c s)) = Some c.
Proof.
  intros Hc. unfold strip. cbn [lstrip]. rewrite Hc. cbn [rstrip].
  destruct (rstrip s); [rewrite Hc |]; reflexivity.
Qed.

Lemma trimmed_first (c : ascii) (s : string) :
  trimmed (String c s) -> isspace c = false.
Proof.
  unfold trimmed. cbn [first_char].
  destruct (last_char (String c s)); [tauto | discriminate].
Qed.

End FirstQuestion.

(** X17: the text that [main] segments is stripped (line 46); when it is not
    empty, its first line does not begin with a space, so the first record
    always has a question that is not empty. *)
Theorem X17_first_question_not_empty (text : string) :
  strip text <> "" ->
  exists (q a : string) (rest : list dict),
    pair_lines (strip text) = Ok (qa_dict q a :: rest) /\ q <> "".
Proof.
  intros Hne. rewrite pair_lines_structural.
  pose proof (strip_trimmed text) as Ht.
  destruct (strip text) as [| c r]; [congruence |].
  apply trimmed_first in Ht.
  assert (Hc : Ascii.eqb c newline = false).
  { destruct (Ascii.eqb_spec c newline) as [-> | _]; [discriminate Ht |].
    reflexivity. }
  cbn [split]. rewrite Hc.
  destruct (split newline r) as [| f fs] eqn:E;
    [now apply split_nonempty in E |].
  pose proof (strip_keeps_first c f Ht) as Hq.
  destruct fs as [| g gs]; cbn [pair_up records map fst snd];
    do 3 eexists; (split; [reflexivity |]);
    intros Hq'; rewrite Hq' in Hq; discriminate.
Qed.

Lemma X17_first_question_not_empty_witness :
  strip ("  Q1 " ++ nl ++ nl) <> "" /\
  exists (q a : string) (rest : list dict),
    pair_lines (strip ("  Q1 " ++ nl ++ nl)) = Ok (qa_dict q a :: rest) /\
    q <> "".
Proof.
  split; [discriminate |].
  apply (X17_first_question_not_empty ("  Q1 " ++ nl ++ nl)). discriminate.
Defined.

Section StripKeepsText.

Lemma lstrip_decompose (s : string) :
  exists l, s = l ++ lstrip s /\ all_space l = true.
Proof.
  induction s as [| c s [l [Hs Hl]]]; [now exists "" |].
  cbn [lstrip]. destruct (isspace c) eqn:Ec.
  - exists (String c l). cbn [append all_space]. now rewrite Ec, Hl, <- Hs.
  - now exists "".
Qed.

Lemma rstrip_decompose (s : string) :
  exists r, s = rstrip s ++ r /\ all_space r = true.
Proof.
  induction s as [| c s [r [Hs Hr]]]; [now exists "" |].
  cbn [rstrip]. destruct (rstrip s) as [| d t] eqn:E.
  - cbn [append] in Hs. subst r. destruct (isspace c) eqn:Ec.
    + exists (String c s). cbn [append all_space]. now rewrite Ec, Hr.
    + exists s. now split.
  - exists r. cbn [append] in *. now rewrite <- Hs.
Qed.

End StripKeepsText.

(** X18: [strip] removes spaces at both ends and nothing else: the text is
    the stripped text between a prefix and a suffix made of spaces only. *)
Theorem X18_strip_removes_only_spaces (s : string) :
  exists l r,
    s = l ++ strip s ++ r /\ all_space l = true /\ all_space r = true.
Proof.
  destruct (lstrip_decompose s) as [l [Hl Hls]].
  destruct (rstrip_decompose (lstrip s)) as [r [Hr Hrs]].
  exists l, r. unfold strip. now rewrite <- Hr, <- Hl.
Qed.


Section NoExceptionEscapes.

Lemma try_export_raise (body : result bytes) (prefix : string) (ui ui' : UI)
      (e : exn) :
  try_export body prefix ui = (Raise e, ui') -> is_Exception e = false.
Proof.
  unfold try_export. destruct body as [o | e0]; [discriminate |].
  destruct (is_Exception e0) eqn:E; [discriminate |].
  now intros [= <- _].
Qed.

End NoExceptionEscapes.

(** X19: no [Exception] leaves [main].  A run that ends in an exception ends
    in one that is no [Exception] (a [KeyboardInterrupt], a [SystemExit]),
    raised by the service or by a serializer. *)
Theorem X19_no_exception_escapes_main
        (Env : Type) (msgs : LibraryMessages)
        (send_message : Env -> string -> result string)
        (xlsx_save : Env -> Workbook -> result bytes)
        (docx_save : Env -> Document -> result bytes)
        (domain : string) (level : nat) (c : Complexity)
        (env : Env) (ui ui' : UI) (e : exn) :
  main Env msgs send_message xlsx_save docx_save domain level c env ui
  = (Raise e, ui') ->
  is_Exception e = false.
Proof.
  intros Hmain.
  destruct (send_message env (build_prompt domain level (complexity_label c)))
    as [text | e0] eqn:Hsend.
  - destruct (string_dec (strip text) "") as [E | Hne].
    + unfold main in Hmain.
      rewrite (generate_ok _ _ _ _ _ _ _ _ Hsend), E in Hmain. discriminate.
    + rewrite (main_with_text _ _ _ _ _ _ _ _ _ _ _ Hsend Hne) in Hmain.
      cbv zeta in Hmain. unfold excel_section, word_section in Hmain.
      destruct (export_to_excel _ _ _ _ _ _) as [[[xl |] | ex] u1] eqn:Hx;
        try (destruct (export_to_word _ _ _ _ _ _) as [[[wd |] | ed] u2] eqn:Hd;
             try discriminate;
             injection Hmain as <- <-;
             now apply try_export_raise in Hd).
      injection Hmain as <- <-. now apply try_export_raise in Hx.
  - unfold main, generate_interview_questions in Hmain.
    rewrite Hsend in Hmain. cbn [bind] in Hmain.
    destruct (is_Exception e0) eqn:E; [discriminate |].
    now injection Hmain as <- <-.
Qed.

Lemma X19_no_exception_escapes_main_witness :
  main unit release_messages (fun _ _ => Ok ("Q1" ++ nl ++ "A1"))
    (failing (ValueError "disk full")) (failing KeyboardInterrupt)
    "Python" 3 Basic tt []
  = (Raise KeyboardInterrupt, ["Error exporting to Excel: disk full"])
  /\ is_Exception KeyboardInterrupt = false.
Proof.
  split; [reflexivity |].
  apply (X19_no_exception_escapes_main unit release_messages
           (fun _ _ => Ok ("Q1" ++ nl ++ "A1"))
           (failing (ValueError "disk full"))
           (failing KeyboardInterrupt)
           "Python" 3 Basic tt []
           ["Error exporting to Excel: disk full"] KeyboardInterrupt).
  reflexivity.
Defined.



(** The page of a text with a vertical tab, both serializers succeeding: two
    error messages and no download. *)
Example control_character_gives_two_errors :
  main nat release_messages
    (fun _ _ => Ok ("Q" ++ vertical_tab ++ "1" ++ nl ++ "A1"))
    constant_save constant_save "Python" 3 Basic 0 []
  = (Ok (results_page "Python" 3 Basic ("Q" ++ vertical_tab ++ "1" ++ nl ++ "A1")
           ++ [Markdown ExcelButton; Markdown WordButton])%list,
     ["Error exporting to Excel: "
        ++ illegal_character release_messages ("Q" ++ vertical_tab ++ "1");
      "Error exporting to Word: " ++ xml_incompatible release_messages]).
Proof. reflexivity. Qed.
(* ===================================================================== *)
(** * Further properties: the table of arbitrary dictionaries *)

Section ColumnFacts.

Lemma existsb_eqb_In (k : string) (l : list string) :
  existsb (String.eqb k) l = true <-> In k l.
Proof.
  rewrite existsb_exists. split.
  - intros [x [Hx E]]. apply String.eqb_eq in E. now subst.
  - intros H. exists k. split; [exact H | apply String.eqb_refl].
Qed.

Lemma add_keys_spec (ks seen : list string) :
  NoDup seen ->
  NoDup (add_keys seen ks) /\
  forall k, In k (add_keys seen ks) <-> In k seen \/ In k ks.
Proof.
  revert seen. induction ks as [| x ks IH]; intros seen Hnd; cbn [add_keys].
  - split; [exact Hnd |]. intros k. cbn [In]. tauto.
  - destruct (existsb (String.eqb x) seen) eqn:E.
    + apply existsb_eqb_In in E.
      destruct (IH seen Hnd) as [H1 H2]. split; [exact H1 |].
      intros k. rewrite H2. cbn [In]. split; [tauto |].
      intros [H | [<- | H]]; auto.
    + assert (Hx : ~ In x seen).
      { intros H. apply existsb_eqb_In in H. congruence. }
      assert (Hnd' : NoDup (seen ++ [x])).
      { apply NoDup_app; [exact Hnd | repeat constructor; auto |].
        intros y Hy [<- | []]. contradiction. }
      destruct (IH _ Hnd') as [H1 H2]. split; [exact H1 |].
      intros k. rewrite H2, in_app_iff. cbn [In]. tauto.
Qed.

Lemma unique_keys_spec (data : list dict) :
  forall seen,
    NoDup seen ->
    NoDup (unique_keys seen data) /\
    forall k, In k (unique_keys seen data)
              <-> In k seen \/ exists d, In d data /\ In k (keys d).
Proof.
  induction data as [| d data IH]; intros seen Hnd; cbn [unique_keys].
  - split; [exact Hnd |]. intros k. split; [tauto |].
    intros [H | [d [[] _]]]. exact H.
  - destruct (add_keys_spec (keys d) seen Hnd) as [A1 A2].
    destruct (IH _ A1) as [H1 H2]. split; [exact H1 |].
    intros k. rewrite H2, A2. cbn [In]. split.
    + intros [[H | H] | [d' [Hd' Hk]]]; eauto.
    + intros [H | [d' [[<- | Hd'] Hk]]]; eauto.
Qed.

End ColumnFacts.

(** X21: for any list of dictionaries, the table has one column for each
    key that occurs in a dictionary, no column twice and no other column, and
    every row has one field for each column (the missing ones are NaN). *)
Theorem X21_columns_are_the_keys (data : list dict) :
  NoDup (columns (from_records data)) /\
  (forall k,
      In k (columns (from_records data))
      <-> exists d, In d data /\ In k (keys d)) /\
  Forall (fun fields =>
            List.length fields = List.length (columns (from_records data)))
         (rows (from_records data)).
Proof.
  unfold from_records. cbn [columns rows].
  destruct (unique_keys_spec data [] (NoDup_nil _)) as [H1 H2].
  split; [exact H1 |]. split.
  - intros k. rewrite H2. cbn [In]. tauto.
  - apply Forall_forall. intros fields Hin.
    apply in_map_iff in Hin as [d [<- _]]. apply length_map.
Qed.
